(** * OusterDriver: processor selection, frame validation and packet dispatch

    A shallow embedding of [src/os_driver_nodelet.cpp] (class
    [ouster_ros::OusterDriver]).  The nodelet reads its configuration,
    advertises one publisher per output, builds an IMU packet handler and a
    lidar packet handler over the enabled lidar-scan processors, and then
    routes every raw packet to the matching handler.

    Conventions of the embedding
    - a C++ [int] is a [Z]; the places where the source converts or may
      overflow are written out;
    - the [double] parameter [ptp_utc_tai_offset] is a binary64 [float];
    - [std::vector<ros::Publisher>] is a [list Publisher] read by index, an
      index past the end being undefined behaviour (a fault of the monad);
    - [std::map<ChanField, ros::Publisher>] is a [gmap], with the inserting
      [operator[]] of the source written out;
    - the closures handed to the processors are defunctionalised: a processor
      is the tuple of values its closure captures, and the body of the
      closure is a function of the driver;
    - every call that reaches ROS ([advertise], [publish], the warning
      streams) is recorded, in order, in an event log. *)

From Stdlib Require Import ZArith Ascii String PrimFloat SpecFloat FloatOps.
From Stdlib Require Uint63.
From stdpp Require Import gmap strings list.

Set Default Proof Using "Type".
Local Open Scope Z_scope.

(** ** Sensor metadata *)

(** [sensor::ChanField]: the channel fields named by the image branch, in
    the order of their enumerator values in the sensor library (the order in
    which a [std::map] keyed by them is traversed). *)
Inductive ChanField :=
| RANGE | RANGE2 | SIGNAL | SIGNAL2 | REFLECTIVITY | REFLECTIVITY2 | NEAR_IR.

Definition ChanField_to_nat (f : ChanField) : nat :=
  match f with
  | RANGE => 1 | RANGE2 => 2 | SIGNAL => 3 | SIGNAL2 => 4
  | REFLECTIVITY => 5 | REFLECTIVITY2 => 6 | NEAR_IR => 7
  end%nat.

Definition ChanField_of_nat (n : nat) : option ChanField :=
  match n with
  | 1 => Some RANGE | 2 => Some RANGE2 | 3 => Some SIGNAL | 4 => Some SIGNAL2
  | 5 => Some REFLECTIVITY | 6 => Some REFLECTIVITY2 | 7 => Some NEAR_IR
  | _ => None
  end%nat.

#[global] Instance ChanField_eq_dec : EqDecision ChanField.
Proof. solve_decision. Defined.

#[global] Instance ChanField_countable : Countable ChanField.
Proof.
  apply (inj_countable ChanField_to_nat ChanField_of_nat).
  intros []; reflexivity.
Defined.

(** [sensor::UDPProfileLidar]. *)
Inductive UDPProfileLidar :=
| PROFILE_LIDAR_LEGACY
| PROFILE_RNG19_RFL8_SIG16_NIR16_DUAL
| PROFILE_RNG19_RFL8_SIG16_NIR16
| PROFILE_RNG15_RFL8_NIR8.

#[global] Instance UDPProfileLidar_eq_dec : EqDecision UDPProfileLidar.
Proof. solve_decision. Defined.

(** Modelled from the spec: [sensor::sensor_info] (declared in the sensor
    library, absent from the sources) reduced to the SensorMetadata of the
    data model: beam count, columns per revolution, number of returns and
    the lidar UDP profile ([info.format.udp_profile_lidar]). *)
Record sensor_info := {
  beam_count : Z;
  columns_per_revolution : Z;
  return_count : Z;
  udp_profile_lidar : UDPProfileLidar;
}.

(** Modelled from the spec: [get_n_returns] and [get_beams_count] (declared
    in os_ros.h, absent from the sources) read the metadata. *)
Definition get_n_returns (info : sensor_info) : Z := return_count info.
Definition get_beams_count (info : sensor_info) : Z := beam_count info.

(** ** Machine integers and doubles *)

Definition INT_MIN : Z := - 2 ^ 31.
Definition INT64_MIN : Z := - 2 ^ 63.
Definition INT64_MAX : Z := 2 ^ 63 - 1.

(** [static_cast<int>(x)] of an unsigned value: reduction modulo 2^32 into
    the signed range. *)
Definition static_cast_int (x : Z) : Z :=
  (x + 2 ^ 31) mod 2 ^ 32 - 2 ^ 31.

(** The integral part of a binary64 value (rounding toward zero); [None] for
    infinities and NaN. *)
Definition float_trunc (d : float) : option Z :=
  match Prim2SF d with
  | S754_zero _ => Some 0
  | S754_finite s m e =>
      let a := if 0 <=? e then Z.shiftl (Z.pos m) e
               else Z.shiftr (Z.pos m) (- e) in
      Some (if s then - a else a)
  | S754_infinity _ | S754_nan => None
  end.

(** [static_cast<int64_t>(d)]: truncation toward zero, undefined when the
    truncated value is not representable. *)
Definition static_cast_int64 (d : float) : option Z :=
  match float_trunc d with
  | Some z => if (INT64_MIN <=? z) && (z <=? INT64_MAX) then Some z else None
  | None => None
  end.

(** [static_cast<int64_t>(ptp_utc_tai_offset * 1e+9)]. *)
Definition offset_to_ns (ptp_utc_tai_offset : float) : option Z :=
  static_cast_int64 (PrimFloat.mul ptp_utc_tai_offset 1e+9%float).

(** The integer nearest to zero among the two that enclose the value
    [(-1)^s * m * 2^e] of a finite binary64 number: what "truncated to an
    integer" means, written with the quotient that rounds toward zero. *)
Definition toward_zero (s : bool) (m : positive) (e : Z) : Z :=
  Z.quot ((if s then -1 else 1) * Z.pos m * 2 ^ Z.max e 0)
    (2 ^ Z.max (- e) 0).

(** The double that holds a whole number of seconds. *)
Definition whole_seconds (n : Z) : float :=
  if 0 <=? n then PrimFloat.of_uint63 (Uint63.of_Z n)
  else PrimFloat.opp (PrimFloat.of_uint63 (Uint63.of_Z (- n))).

(** ** Node parameters *)

(** The private node handle's parameter server, one optional entry per
    parameter the driver reads. *)
Record Params := {
  p_proc_mask : option string;
  p_timestamp_mode : option string;
  p_ptp_utc_tai_offset : option float;
  p_min_valid_columns_in_scan : option Z;
  p_point_type : option string;
  p_scan_ring : option Z;
}.

(** [pnh.param(name, dflt)]: the stored value, or the default. *)
Definition param {A} (entry : option A) (dflt : A) : A := default dflt entry.

(** ** Publishers *)

Inductive MsgType := ImuT | PointCloud2T | LaserScanT | ImageT.

#[global] Instance MsgType_eq_dec : EqDecision MsgType.
Proof. solve_decision. Defined.

(** [ros::Publisher]: default-constructed (invalid), or the result of
    [nh.advertise<T>(topic, queue_size)]. *)
Inductive Publisher :=
| InvalidPublisher
| Advertised (ty : MsgType) (topic : string) (queue_size : Z).

(** [OusterTransformsBroadcaster], reduced to the accessors the driver
    calls. *)
Record OusterTransformsBroadcaster := {
  imu_frame_id : string;
  lidar_frame_id : string;
  point_cloud_frame_id : string;
  apply_lidar_to_sensor_transform : bool;
}.

(** ** Processor outputs *)

(** Modelled from the spec: the three [OutputType] structs (declared with
    the processors, absent from the sources), the OutputFrame of the data
    model: the scalar valid column count, an [int] like the threshold it is
    compared with, and the messages built from the scan, named [pc_msgs],
    [scan_msgs] and [image_msgs] by the callbacks. *)
Record OutputType (Msgs : Type) := {
  num_valid_columns : Z;
  msgs : Msgs;
}.
Arguments num_valid_columns {Msgs} _.
Arguments msgs {Msgs} _.

Abbreviation pc_msgs := msgs (only parsing).
Abbreviation scan_msgs := msgs (only parsing).
Abbreviation image_msgs := msgs (only parsing).

(** A raw packet buffer ([const uint8_t*]). *)
Definition RawPacket := list Byte.byte.

(** The warnings of [create_publishers] and of its callbacks, each with the
    values streamed into it. *)
Inductive Warning :=
| IncompleteCloud (got expected : Z)
| ProfileIncompatible (point_type : string)
| ScanRingClamped (beams_count scan_ring : Z).

Inductive StreamItem := Text (s : string) | Num (n : Z).

(** The pieces streamed into [ROS_WARN_STREAM] / [NODELET_WARN_STREAM]. *)
Definition warning_stream (w : Warning) : list StreamItem :=
  match w with
  | IncompleteCloud got expected =>
      [Text "Incomplete cloud, dropping it. Got "; Num got;
       Text " valid columns, expected "; Num expected; Text "."]
  | ProfileIncompatible point_type =>
      [Text "selected point type '"; Text point_type;
       Text "' is not compatible with the current udp profile: RNG15_RFL8_NIR8"]
  | ScanRingClamped beams_count scan_ring =>
      [Text "scan ring is set to a value that exceeds available rangeplease choose a value between [0, ";
       Num beams_count; Text "], ring value clamped to: "; Num scan_ring]
  end.

(** Modelled from the spec: the Timestamp Corrector's modes (the handlers
    that interpret the [timestamp_mode] string are absent from the
    sources). *)
Inductive TimestampMode := SensorTime | HostArrivalTime | TaiCorrected.

(** Modelled from the spec: the Timestamp Corrector (section 4.6):
    sensor-time passthrough, host-arrival-time substitution, or sensor time
    with the UTC/TAI offset subtracted. *)
Definition correct_timestamp (raw_timestamp host_time : Z)
    (mode : TimestampMode) (utc_tai_offset_ns : Z) : Z :=
  match mode with
  | SensorTime => raw_timestamp
  | HostArrivalTime => host_time
  | TaiCorrected => raw_timestamp - utc_tai_offset_ns
  end.

(** ** Processor mask *)

(** Modelled from the spec: the cutting of a delimiter-separated token
    string (section 4.1; [impl::parse_tokens] is declared in os_ros.h,
    absent from the sources): the pieces between the delimiters, in
    order. *)
Fixpoint split_on (delim : Ascii.ascii) (s : string) : list string :=
  match s with
  | EmptyString => [EmptyString]
  | String c rest =>
      if Ascii.eqb c delim then EmptyString :: split_on delim rest
      else match split_on delim rest with
           | [] => [String c EmptyString]
           | piece :: pieces => String c piece :: pieces
           end
  end.

Definition recognized_tokens : list string := ["IMU"; "PCL"; "SCAN"; "IMG"].

(** Modelled from the spec: [impl::parse_tokens] (section 4.1): the set of
    the pieces of the mask that are exactly one of IMU, PCL, SCAN, IMG; the
    other pieces are ignored. *)
Definition parse_tokens (input : string) (delim : Ascii.ascii) : gset string :=
  list_to_set
    (filter (fun piece => piece ∈ recognized_tokens) (split_on delim input)).

(** Modelled from the spec: [impl::check_token] (section 4.1), the
    membership test on the token set. *)
Definition check_token (tokens : gset string) (token : string) : bool :=
  bool_decide (token ∈ tokens).


(** ** The driver *)

Section Driver.

(** Message and scan types of ROS and of the sensor library. *)
Context {LidarScan PointCloud2 LaserScan Image ImuReadings ScanState : Type}.

(** [topic_for_return] and
    [PointCloudProcessorFactory::point_type_requires_intensity] are
    declared in headers absent from the sources. *)
Variable topic_for_return : string -> Z -> string.
Variable point_type_requires_intensity : string -> bool.

(** [sensor_msgs::Imu], reduced to its header and an opaque body. *)
Record Imu := {
  stamp : Z;
  frame_id : string;
  readings : ImuReadings;
}.

Inductive Msg :=
| ImuMsg (m : Imu)
| PointCloud2Msg (m : PointCloud2)
| LaserScanMsg (m : LaserScan)
| ImageMsg (m : Image).

(** What the driver does to the outside, in order. *)
Inductive Event :=
| Advertise (ty : MsgType) (topic : string) (queue_size : Z)
| Publish (pub : Publisher) (m : Msg)
| Warn (w : Warning).

(** The closure returned by [ImuPacketHandler::create_handler]: the
    arguments it was built from. *)
Record ImuPacketHandler := {
  imu_info : sensor_info;
  imu_frame : string;
  imu_timestamp_mode : string;
  imu_ptp_utc_tai_offset : Z;
}.

(** A [LidarScanProcessor]: which processor it is, the arguments of its
    factory call, and the value its output callback captures
    ([min_valid_columns_in_scan]). *)
Inductive LidarScanProcessor :=
| PointCloudProcessor (point_type : string) (info : sensor_info)
    (frame : string) (apply_lidar_to_sensor_transform : bool)
    (min_valid_columns_in_scan : Z)
| LaserScanProcessor (info : sensor_info) (frame : string) (scan_ring : Z)
    (min_valid_columns_in_scan : Z)
| ImageProcessor (info : sensor_info) (frame : string)
    (min_valid_columns_in_scan : Z).

(** The closure returned by [LidarPacketHandler::create_handler]: its
    arguments, and the scan it is accumulating. *)
Record LidarPacketHandler := {
  lidar_info : sensor_info;
  lidar_scan_handlers : list LidarScanProcessor;
  lidar_timestamp_mode : string;
  lidar_ptp_utc_tai_offset : Z;
  lidar_scan_state : ScanState;
}.

(** The members of [OusterDriver], with [info] inherited from
    [OusterSensor]; an empty [std::function] is [None]. *)
Record OusterDriver := {
  info : sensor_info;
  tf_bcast : OusterTransformsBroadcaster;
  imu_pub : Publisher;
  lidar_pubs : list Publisher;
  scan_pubs : list Publisher;
  image_pubs : gmap ChanField Publisher;
  imu_packet_handler : option ImuPacketHandler;
  lidar_packet_handler : option LidarPacketHandler;
}.

Definition set_imu_pub (p : Publisher) (d : OusterDriver) : OusterDriver :=
  {| info := info d; tf_bcast := tf_bcast d; imu_pub := p;
     lidar_pubs := lidar_pubs d; scan_pubs := scan_pubs d;
     image_pubs := image_pubs d;
     imu_packet_handler := imu_packet_handler d;
     lidar_packet_handler := lidar_packet_handler d |}.

Definition set_lidar_pubs (v : list Publisher) (d : OusterDriver)
  : OusterDriver :=
  {| info := info d; tf_bcast := tf_bcast d; imu_pub := imu_pub d;
     lidar_pubs := v; scan_pubs := scan_pubs d;
     image_pubs := image_pubs d;
     imu_packet_handler := imu_packet_handler d;
     lidar_packet_handler := lidar_packet_handler d |}.

Definition set_scan_pubs (v : list Publisher) (d : OusterDriver)
  : OusterDriver :=
  {| info := info d; tf_bcast := tf_bcast d; imu_pub := imu_pub d;
     lidar_pubs := lidar_pubs d; scan_pubs := v;
     image_pubs := image_pubs d;
     imu_packet_handler := imu_packet_handler d;
     lidar_packet_handler := lidar_packet_handler d |}.

Definition set_image_pubs (m : gmap ChanField Publisher) (d : OusterDriver)
  : OusterDriver :=
  {| info := info d; tf_bcast := tf_bcast d; imu_pub := imu_pub d;
     lidar_pubs := lidar_pubs d; scan_pubs := scan_pubs d;
     image_pubs := m;
     imu_packet_handler := imu_packet_handler d;
     lidar_packet_handler := lidar_packet_handler d |}.

Definition set_imu_packet_handler (h : option ImuPacketHandler)
    (d : OusterDriver) : OusterDriver :=
  {| info := info d; tf_bcast := tf_bcast d; imu_pub := imu_pub d;
     lidar_pubs := lidar_pubs d; scan_pubs := scan_pubs d;
     image_pubs := image_pubs d;
     imu_packet_handler := h;
     lidar_packet_handler := lidar_packet_handler d |}.

Definition set_lidar_packet_handler (h : option LidarPacketHandler)
    (d : OusterDriver) : OusterDriver :=
  {| info := info d; tf_bcast := tf_bcast d; imu_pub := imu_pub d;
     lidar_pubs := lidar_pubs d; scan_pubs := scan_pubs d;
     image_pubs := image_pubs d;
     imu_packet_handler := imu_packet_handler d;
     lidar_packet_handler := h |}.

(** *** The monad of member functions

    A member function reads and updates the driver and appends to the
    event log; [None] is a run the C++ standard leaves undefined or that
    ends in an uncaught exception. *)
Definition M (A : Type) : Type :=
  OusterDriver -> option (A * OusterDriver * list Event).

Definition ret {A} (a : A) : M A := fun d => Some (a, d, []).

Definition bind {A B} (c : M A) (k : A -> M B) : M B :=
  fun d =>
    match c d with
    | None => None
    | Some (a, d1, log1) =>
        match k a d1 with
        | None => None
        | Some (b, d2, log2) => Some (b, d2, log1 ++ log2)
        end
    end.

Definition fault {A} : M A := fun _ => None.
Definition get : M OusterDriver := fun d => Some (d, d, []).
Definition modify (f : OusterDriver -> OusterDriver) : M unit :=
  fun d => Some (tt, f d, []).
Definition emit (e : Event) : M unit := fun d => Some (tt, d, [e]).
Definition lift_option {A} (o : option A) : M A :=
  match o with Some a => ret a | None => fault end.

Notation "'let*' x ':=' c 'in' k" := (bind c (fun x => k))
  (at level 10, x name, c at level 100, k at level 200).
Notation "c '>>' k" := (bind c (fun _ => k))
  (at level 65, right associativity).

Definition when (b : bool) (c : M unit) : M unit :=
  if b then c else ret tt.

(** A [for] loop over the values of its induction variable. *)
Fixpoint for_each {A} (l : list A) (body : A -> M unit) : M unit :=
  match l with
  | [] => ret tt
  | x :: rest => body x >> for_each rest body
  end.

(** [nh.advertise<T>(topic, queue_size)]. *)
Definition advertise (ty : MsgType) (topic : string) (queue_size : Z)
  : M Publisher :=
  emit (Advertise ty topic queue_size) >>
  ret (Advertised ty topic queue_size).

(** [pub.publish(msg)]. *)
Definition publish (pub : Publisher) (m : Msg) : M unit :=
  emit (Publish pub m).

(** [v[i]] on a [std::vector]: undefined past the end. *)
Definition vector_at (v : list Publisher) (i : nat) : M Publisher :=
  lift_option (v !! i).

(** [image_pubs[key]] on the [std::map]: a missing key is first inserted
    with a default-constructed publisher. *)
Definition image_pubs_at (key : ChanField) : M Publisher :=
  let* d := get in
  match image_pubs d !! key with
  | Some p => ret p
  | None =>
      modify (set_image_pubs (<[key := InvalidPublisher]> (image_pubs d))) >>
      ret InvalidPublisher
  end.

(** *** The output callbacks of [create_publishers] *)

(** The loop shared by the point cloud and laser scan callbacks:
    [for (size_t i = 0; i < msgs.size(); ++i) pubs[i].publish( *msgs[i])]. *)
Definition publish_by_index {A} (pubs : OusterDriver -> list Publisher)
    (wrap : A -> Msg) (messages : list A) : M unit :=
  for_each (seq 0 (length messages)) (fun i =>
    let* d := get in
    let* pub := vector_at (pubs d) i in
    let* m := lift_option (messages !! i) in
    publish pub (wrap m)).

(** Lines 85-95: the point cloud callback. *)
Definition point_cloud_callback (min_valid_columns_in_scan : Z)
    (data : OutputType (list PointCloud2)) : M unit :=
  if num_valid_columns data <? min_valid_columns_in_scan then
    emit (Warn (IncompleteCloud (num_valid_columns data)
                                min_valid_columns_in_scan))
  else publish_by_index lidar_pubs PointCloud2Msg (pc_msgs data).

(** Lines 127-133: the laser scan callback. *)
Definition laser_scan_callback (min_valid_columns_in_scan : Z)
    (data : OutputType (list LaserScan)) : M unit :=
  if num_valid_columns data <? min_valid_columns_in_scan then ret tt
  else publish_by_index scan_pubs LaserScanMsg (scan_msgs data).

(** Lines 163-170: the image callback; [image_msgs] is traversed in the
    order of its keys. *)
Definition image_callback (min_valid_columns_in_scan : Z)
    (data : OutputType (list (ChanField * Image))) : M unit :=
  if num_valid_columns data <? min_valid_columns_in_scan then
    ret tt
  else
    for_each (image_msgs data) (fun it =>
      let* pub := image_pubs_at (fst it) in
      publish pub (ImageMsg (snd it))).

(** *** [create_publishers] *)

(** [v.resize(n)] followed by the loop that advertises one publisher per
    return: lines 75-79 and 108-112.  A negative [n] converts to a size
    no vector can have, and [resize] throws. *)
Definition vector_set (sel : OusterDriver -> list Publisher)
    (upd : list Publisher -> OusterDriver -> OusterDriver)
    (i : nat) (pub : Publisher) : M unit :=
  let* d := get in
  if bool_decide (i < length (sel d))%nat then
    modify (upd (<[i := pub]> (sel d)))
  else fault.

Definition advertise_returns (sel : OusterDriver -> list Publisher)
    (upd : list Publisher -> OusterDriver -> OusterDriver)
    (ty : MsgType) (base : string) (num_returns : Z) : M unit :=
  (if num_returns <? 0 then fault
   else
     let* d := get in
     modify (upd (resize (Z.to_nat num_returns) InvalidPublisher (sel d)))) >>
  for_each (seq 0 (Z.to_nat num_returns)) (fun i =>
    let* pub := advertise ty (topic_for_return base (Z.of_nat i)) 10 in
    vector_set sel upd i pub).

(** Lines 137-152: the two topic maps, listed in the order of their
    keys. *)
Definition channel_field_topic_map_1 : list (ChanField * string) :=
  [(RANGE, "range_image"); (SIGNAL, "signal_image");
   (REFLECTIVITY, "reflec_image"); (NEAR_IR, "nearir_image")].

Definition channel_field_topic_map_2 : list (ChanField * string) :=
  [(RANGE, "range_image"); (RANGE2, "range_image2");
   (SIGNAL, "signal_image"); (SIGNAL2, "signal_image2");
   (REFLECTIVITY, "reflec_image"); (REFLECTIVITY2, "reflec_image2");
   (NEAR_IR, "nearir_image")].

(** Lines 154-155. *)
Definition which_map (num_returns : Z) : list (ChanField * string) :=
  if num_returns =? 1 then channel_field_topic_map_1
  else channel_field_topic_map_2.

(** Line 117: the ring handed to the laser scan processor, for a
    [beams_count] other than the least [int]; there [beams_count - 1]
    overflows, and [create_scan] faults before it clamps. *)
Definition clamp_scan_ring (scan_ring beams_count : Z) : Z :=
  Z.min (Z.max scan_ring 0) (beams_count - 1).

(** The state a freshly created lidar packet handler starts from. *)
Variable initial_scan_state : sensor_info -> ScanState.

(** Lines 64-69. *)
Definition create_imu (timestamp_mode : string) (ptp_utc_tai_offset : float)
  : M unit :=
  let* pub := advertise ImuT "imu" 100 in
  modify (set_imu_pub pub) >>
  let* d := get in
  let* offset_ns := lift_option (offset_to_ns ptp_utc_tai_offset) in
  modify (set_imu_packet_handler (Some
    {| imu_info := info d;
       imu_frame := imu_frame_id (tf_bcast d);
       imu_timestamp_mode := timestamp_mode;
       imu_ptp_utc_tai_offset := offset_ns |})).

(** Lines 75-104; the result is the processor pushed onto [processors]. *)
Definition create_pcl (pnh : Params) (num_returns : Z)
    (min_valid_columns_in_scan : Z) : M LidarScanProcessor :=
  advertise_returns lidar_pubs set_lidar_pubs PointCloud2T "points"
    num_returns >>
  let point_type := param (p_point_type pnh) "original" in
  let* d := get in
  let processor :=
    PointCloudProcessor point_type (info d)
      (point_cloud_frame_id (tf_bcast d))
      (apply_lidar_to_sensor_transform (tf_bcast d))
      min_valid_columns_in_scan in
  when (point_type_requires_intensity point_type &&
        bool_decide (udp_profile_lidar (info d) = PROFILE_RNG15_RFL8_NIR8))
    (emit (Warn (ProfileIncompatible point_type))) >>
  ret processor.

(** Lines 108-133.  The [scan_ring] parameter is read twice, before the
    clamp and for the comparison after it; the parameter server does not
    change in between.  [beams_count - 1] overflows when [beams_count] is
    the least [int]. *)
Definition create_scan (pnh : Params) (num_returns : Z)
    (min_valid_columns_in_scan : Z) : M LidarScanProcessor :=
  advertise_returns scan_pubs set_scan_pubs LaserScanT "scan"
    num_returns >>
  let* d := get in
  let beams_count := static_cast_int (get_beams_count (info d)) in
  let scan_ring := param (p_scan_ring pnh) 0 in
  (if beams_count =? INT_MIN then fault else ret tt) >>
  let scan_ring := clamp_scan_ring scan_ring beams_count in
  when (negb (scan_ring =? param (p_scan_ring pnh) 0))
    (emit (Warn (ScanRingClamped beams_count scan_ring))) >>
  ret (LaserScanProcessor (info d) (lidar_frame_id (tf_bcast d)) scan_ring
         min_valid_columns_in_scan).

(** Lines 137-170. *)
Definition create_img (num_returns : Z) (min_valid_columns_in_scan : Z)
  : M LidarScanProcessor :=
  for_each (which_map num_returns) (fun it =>
    let* pub := advertise ImageT (snd it) 10 in
    let* d := get in
    modify (set_image_pubs (<[fst it := pub]> (image_pubs d)))) >>
  let* d := get in
  ret (ImageProcessor (info d) (point_cloud_frame_id (tf_bcast d))
         min_valid_columns_in_scan).

(** Lines 52-178. *)
Definition create_publishers (pnh : Params) : M unit :=
  let proc_mask := param (p_proc_mask pnh) "IMU|IMG|PCL|SCAN" in
  let tokens := parse_tokens proc_mask "|"%char in
  let timestamp_mode := param (p_timestamp_mode pnh) "" in
  let ptp_utc_tai_offset :=
    param (p_ptp_utc_tai_offset pnh) (-37.0)%float in
  let min_valid_columns_in_scan :=
    param (p_min_valid_columns_in_scan pnh) 0 in
  when (check_token tokens "IMU")
    (create_imu timestamp_mode ptp_utc_tai_offset) >>
  let* d := get in
  let num_returns := get_n_returns (info d) in
  let processors : list LidarScanProcessor := [] in
  let* processors :=
    if check_token tokens "PCL" then
      let* p := create_pcl pnh num_returns min_valid_columns_in_scan in
      ret (processors ++ [p])
    else ret processors in
  let* processors :=
    if check_token tokens "SCAN" then
      let* p := create_scan pnh num_returns min_valid_columns_in_scan in
      ret (processors ++ [p])
    else ret processors in
  let* processors :=
    if check_token tokens "IMG" then
      let* p := create_img num_returns min_valid_columns_in_scan in
      ret (processors ++ [p])
    else ret processors in
  when (check_token tokens "PCL" || check_token tokens "SCAN" ||
        check_token tokens "IMG")
    (let* d := get in
     let* offset_ns := lift_option (offset_to_ns ptp_utc_tai_offset) in
     modify (set_lidar_packet_handler (Some
       {| lidar_info := info d;
          lidar_scan_handlers := processors;
          lidar_timestamp_mode := timestamp_mode;
          lidar_ptp_utc_tai_offset := offset_ns;
          lidar_scan_state := initial_scan_state (info d) |}))).

(** *** The packet handlers *)

(** Modelled from the spec: the packet decoding of the IMU Transform and
    of the Scan Accumulator (imu_packet_handler.h, lidar_packet_handler.h
    and the processors are absent from the sources): the hardware
    timestamp and the readings of an inertial packet, the host time at
    which a packet arrives, the mode a [timestamp_mode] string stands for,
    the accumulation of a lidar packet into the scan in progress (with the
    completed scan, when the packet closes a revolution), the valid column
    count of a scan and the payload builders. *)
Variable imu_gyro_ts : RawPacket -> Z.
Variable imu_readings : RawPacket -> ImuReadings.
Variable ros_time_now : RawPacket -> Z.
Variable parse_timestamp_mode : string -> TimestampMode.
Variable lidar_packet_accumulator :
  ScanState -> RawPacket -> ScanState * option LidarScan.
Variable valid_column_count : LidarScan -> Z.
Variable point_cloud_of :
  string -> sensor_info -> string -> bool -> nat -> LidarScan -> PointCloud2.
Variable laser_scan_of :
  sensor_info -> string -> Z -> nat -> LidarScan -> LaserScan.
Variable image_of : sensor_info -> string -> ChanField -> LidarScan -> Image.

(** Modelled from the spec: the IMU Transform (section 4.5), the closure
    [ImuPacketHandler::create_handler] returns: one sample per packet,
    stamped by the Timestamp Corrector. *)
Definition imu_handler_call (h : ImuPacketHandler) (pkt : RawPacket) : Imu :=
  {| stamp := correct_timestamp (imu_gyro_ts pkt) (ros_time_now pkt)
                (parse_timestamp_mode (imu_timestamp_mode h))
                (imu_ptp_utc_tai_offset h);
     frame_id := imu_frame h;
     readings := imu_readings pkt |}.

(** Modelled from the spec: the Output Transform Variants (section 4.4)
    followed by their output callback: one sub-payload per return index
    for point clouds and laser scans, one image per channel field of the
    active topic map. *)
Definition process (p : LidarScanProcessor) (scan : LidarScan) : M unit :=
  match p with
  | PointCloudProcessor point_type inf frame apply minv =>
      point_cloud_callback minv
        {| num_valid_columns := valid_column_count scan;
           msgs := map (fun r => point_cloud_of point_type inf frame apply
                                   r scan)
                     (seq 0 (Z.to_nat (get_n_returns inf))) |}
  | LaserScanProcessor inf frame scan_ring minv =>
      laser_scan_callback minv
        {| num_valid_columns := valid_column_count scan;
           msgs := map (fun r => laser_scan_of inf frame scan_ring r scan)
                     (seq 0 (Z.to_nat (get_n_returns inf))) |}
  | ImageProcessor inf frame minv =>
      image_callback minv
        {| num_valid_columns := valid_column_count scan;
           msgs := map (fun it => (fst it, image_of inf frame (fst it) scan))
                     (which_map (get_n_returns inf)) |}
  end.

(** Modelled from the spec: the Scan Accumulator (section 4.3), the
    closure [LidarPacketHandler::create_handler] returns: the packet is
    accumulated, and a completed scan is handed to every processor. *)
Definition lidar_handler_call (h : LidarPacketHandler) (pkt : RawPacket)
  : M unit :=
  let next := lidar_packet_accumulator (lidar_scan_state h) pkt in
  modify (set_lidar_packet_handler (Some
    {| lidar_info := lidar_info h;
       lidar_scan_handlers := lidar_scan_handlers h;
       lidar_timestamp_mode := lidar_timestamp_mode h;
       lidar_ptp_utc_tai_offset := lidar_ptp_utc_tai_offset h;
       lidar_scan_state := fst next |})) >>
  match snd next with
  | Some scan =>
      for_each (lidar_scan_handlers h) (fun p => process p scan)
  | None => ret tt
  end.

(** *** Dispatch *)

(** Lines 180-182. *)
Definition on_lidar_packet_msg (raw_lidar_packet : RawPacket) : M unit :=
  let* d := get in
  match lidar_packet_handler d with
  | Some h => lidar_handler_call h raw_lidar_packet
  | None => ret tt
  end.

(** Lines 184-187. *)
Definition on_imu_packet_msg (raw_imu_packet : RawPacket) : M unit :=
  let* d := get in
  match imu_packet_handler d with
  | Some h => publish (imu_pub d) (ImuMsg (imu_handler_call h raw_imu_packet))
  | None => ret tt
  end.

(** A raw packet as the sensor node delivers it, lidar or inertial. *)
Inductive Delivery :=
| LidarPacket (buf : RawPacket)
| ImuPacket (buf : RawPacket).

Definition deliver (p : Delivery) : M unit :=
  match p with
  | LidarPacket buf => on_lidar_packet_msg buf
  | ImuPacket buf => on_imu_packet_msg buf
  end.

Definition deliver_all (ps : list Delivery) : M unit := for_each ps deliver.

(** The driver as its constructor leaves it: no publisher advertised, no
    handler built. *)
Definition new_driver (inf : sensor_info) (tf : OusterTransformsBroadcaster)
  : OusterDriver :=
  {| info := inf; tf_bcast := tf; imu_pub := InvalidPublisher;
     lidar_pubs := []; scan_pubs := []; image_pubs := ∅;
     imu_packet_handler := None; lidar_packet_handler := None |}.

(** *** Reading the event log *)

Definition warnings (log : list Event) : list Warning :=
  omap (fun e => match e with Warn w => Some w | _ => None end) log.

Definition publishes (log : list Event) : list (Publisher * Msg) :=
  omap (fun e => match e with Publish p m => Some (p, m) | _ => None end)
    log.

Definition is_scan_ring_warning (w : Warning) : bool :=
  match w with ScanRingClamped _ _ => true | _ => false end.

(** A publish call that carries a laser scan or an image. *)
Definition is_scan_or_image_publish (e : Event) : bool :=
  match e with
  | Publish _ (LaserScanMsg _) | Publish _ (ImageMsg _) => true
  | _ => false
  end.

(** The scan ring warnings of a log. *)
Definition ring_warnings (log : list Event) : list Warning :=
  List.filter is_scan_ring_warning (warnings log).

(** The topics a log advertises for messages of type [ty]. *)
Definition advertised (ty : MsgType) (log : list Event) : list string :=
  omap (fun e => match e with
                 | Advertise ty' topic _ =>
                     if decide (ty' = ty) then Some topic else None
                 | _ => None
                 end) log.

(** *** What [create_publishers] builds

    The publishers, processors and log entries of each branch, as values;
    [create_publishers_run] below shows that running the member function
    produces exactly these. *)

Definition return_pubs (ty : MsgType) (base : string) (num_returns : Z)
  : list Publisher :=
  map (fun i => Advertised ty (topic_for_return base (Z.of_nat i)) 10)
    (seq 0 (Z.to_nat num_returns)).

Definition return_adverts (ty : MsgType) (base : string) (num_returns : Z)
  : list Event :=
  map (fun i => Advertise ty (topic_for_return base (Z.of_nat i)) 10)
    (seq 0 (Z.to_nat num_returns)).

(** One publish call per return: message [wrap i] on the publisher
    advertised for return [i]. *)
Definition return_delivery (ty : MsgType) (base : string)
    (wrap : nat -> Msg) (num_returns : Z) : list Event :=
  map (fun i => Publish (Advertised ty (topic_for_return base (Z.of_nat i))
                           10) (wrap i))
    (seq 0 (Z.to_nat num_returns)).

Definition image_pubs_for (topics : list (ChanField * string))
    (pubs : gmap ChanField Publisher) : gmap ChanField Publisher :=
  foldl (fun m it => <[fst it := Advertised ImageT (snd it) 10]> m)
    pubs topics.

Definition image_adverts (topics : list (ChanField * string)) : list Event :=
  map (fun it => Advertise ImageT (snd it) 10) topics.

Definition tokens_of (pnh : Params) : gset string :=
  parse_tokens (param (p_proc_mask pnh) "IMU|IMG|PCL|SCAN") "|"%char.

Definition threshold_of (pnh : Params) : Z :=
  param (p_min_valid_columns_in_scan pnh) 0.

Definition offset_of (pnh : Params) : float :=
  param (p_ptp_utc_tai_offset pnh) (-37.0)%float.

Definition imu_handler_for (pnh : Params) (offset_ns : Z) (d : OusterDriver)
  : ImuPacketHandler :=
  {| imu_info := info d;
     imu_frame := imu_frame_id (tf_bcast d);
     imu_timestamp_mode := param (p_timestamp_mode pnh) "";
     imu_ptp_utc_tai_offset := offset_ns |}.

Definition pcl_processor (pnh : Params) (d : OusterDriver)
  : LidarScanProcessor :=
  PointCloudProcessor (param (p_point_type pnh) "original") (info d)
    (point_cloud_frame_id (tf_bcast d))
    (apply_lidar_to_sensor_transform (tf_bcast d)) (threshold_of pnh).

Definition pcl_warning (pnh : Params) (d : OusterDriver) : list Event :=
  if point_type_requires_intensity (param (p_point_type pnh) "original") &&
     bool_decide (udp_profile_lidar (info d) = PROFILE_RNG15_RFL8_NIR8)
  then [Warn (ProfileIncompatible (param (p_point_type pnh) "original"))]
  else [].

Definition beams_count_of (d : OusterDriver) : Z :=
  static_cast_int (get_beams_count (info d)).

Definition scan_ring_of (pnh : Params) (d : OusterDriver) : Z :=
  clamp_scan_ring (param (p_scan_ring pnh) 0) (beams_count_of d).

Definition scan_processor (pnh : Params) (d : OusterDriver)
  : LidarScanProcessor :=
  LaserScanProcessor (info d) (lidar_frame_id (tf_bcast d))
    (scan_ring_of pnh d) (threshold_of pnh).

Definition scan_warning (pnh : Params) (d : OusterDriver) : list Event :=
  if negb (scan_ring_of pnh d =? param (p_scan_ring pnh) 0)
  then [Warn (ScanRingClamped (beams_count_of d) (scan_ring_of pnh d))]
  else [].

Definition img_processor (pnh : Params) (d : OusterDriver)
  : LidarScanProcessor :=
  ImageProcessor (info d) (point_cloud_frame_id (tf_bcast d))
    (threshold_of pnh).

Definition processors_for (pnh : Params) (d : OusterDriver)
  : list LidarScanProcessor :=
  (if check_token (tokens_of pnh) "PCL" then [pcl_processor pnh d] else [])
  ++ (if check_token (tokens_of pnh) "SCAN" then [scan_processor pnh d]
      else [])
  ++ (if check_token (tokens_of pnh) "IMG" then [img_processor pnh d]
      else []).

Definition lidar_handler_for (pnh : Params) (offset_ns : Z)
    (d : OusterDriver) : LidarPacketHandler :=
  {| lidar_info := info d;
     lidar_scan_handlers := processors_for pnh d;
     lidar_timestamp_mode := param (p_timestamp_mode pnh) "";
     lidar_ptp_utc_tai_offset := offset_ns;
     lidar_scan_state := initial_scan_state (info d) |}.

Definition configured (pnh : Params) (offset_ns : Z) (d : OusterDriver)
  : OusterDriver :=
  let tokens := tokens_of pnh in
  let n := get_n_returns (info d) in
  {| info := info d;
     tf_bcast := tf_bcast d;
     imu_pub := if check_token tokens "IMU" then Advertised ImuT "imu" 100
                else imu_pub d;
     lidar_pubs := if check_token tokens "PCL"
                   then return_pubs PointCloud2T "points" n
                   else lidar_pubs d;
     scan_pubs := if check_token tokens "SCAN"
                  then return_pubs LaserScanT "scan" n
                  else scan_pubs d;
     image_pubs := if check_token tokens "IMG"
                   then image_pubs_for (which_map n) (image_pubs d)
                   else image_pubs d;
     imu_packet_handler :=
       if check_token tokens "IMU"
       then Some (imu_handler_for pnh offset_ns d)
       else imu_packet_handler d;
     lidar_packet_handler :=
       if check_token tokens "PCL" || check_token tokens "SCAN" ||
          check_token tokens "IMG"
       then Some (lidar_handler_for pnh offset_ns d)
       else lidar_packet_handler d |}.

Definition configuration_log (pnh : Params) (d : OusterDriver)
  : list Event :=
  let tokens := tokens_of pnh in
  let n := get_n_returns (info d) in
  (if check_token tokens "IMU" then [Advertise ImuT "imu" 100] else [])
  ++ (if check_token tokens "PCL"
      then return_adverts PointCloud2T "points" n ++ pcl_warning pnh d
      else [])
  ++ (if check_token tokens "SCAN"
      then return_adverts LaserScanT "scan" n ++ scan_warning pnh d
      else [])
  ++ (if check_token tokens "IMG" then image_adverts (which_map n) else []).

(** The threshold a processor's callback compares against. *)
Definition processor_threshold (p : LidarScanProcessor) : Z :=
  match p with
  | PointCloudProcessor _ _ _ _ minv => minv
  | LaserScanProcessor _ _ _ minv => minv
  | ImageProcessor _ _ minv => minv
  end.

(** The publish calls that deliver a frame: message [i] on publisher
    [i]. *)
Definition delivery {A} (pubs : list Publisher) (wrap : A -> Msg)
    (messages : list A) : list Event :=
  zip_with (fun p m => Publish p (wrap m)) pubs messages.

(** The publish calls that deliver an image frame: each image on the
    publisher stored under its channel field. *)
Definition image_delivery (pubs : gmap ChanField Publisher)
    (images : list (ChanField * Image)) : list Event :=
  map (fun it => Publish (default InvalidPublisher (pubs !! fst it))
                   (ImageMsg (snd it))) images.

(** The driver with an IMU handler and a lidar handler whose only
    processor is the point cloud processor [p]. *)
Definition imu_and_point_cloud_only (p : LidarScanProcessor)
    (scans : list Publisher) (images : gmap ChanField Publisher)
    (d : OusterDriver) : Prop :=
  is_Some (imu_packet_handler d)
  /\ (exists hl, lidar_packet_handler d = Some hl
                 /\ lidar_scan_handlers hl = [p])
  /\ (exists point_type inf frame apply minv,
        p = PointCloudProcessor point_type inf frame apply minv
        /\ lidar_pubs d
           = return_pubs PointCloud2T "points" (get_n_returns inf))
  /\ scan_pubs d = scans
  /\ image_pubs d = images.

(** *** When [create_publishers] runs to completion *)

(** The offset handed to the handlers, when the parameter converts. *)
Definition offset_ns_of (pnh : Params) : Z :=
  default 0 (offset_to_ns (offset_of pnh)).

(** The conditions under which no step of [create_publishers] is undefined
    or throws: the offset converts when a handler is built from it, the
    return count can size a vector when one is resized to it, and
    [beams_count - 1] does not overflow when the ring is clamped. *)
Definition runnable (pnh : Params) (d : OusterDriver) : Prop :=
  (check_token (tokens_of pnh) "IMU" || check_token (tokens_of pnh) "PCL"
     || check_token (tokens_of pnh) "SCAN" || check_token (tokens_of pnh) "IMG"
     = true -> is_Some (offset_to_ns (offset_of pnh)))
  /\ (check_token (tokens_of pnh) "PCL" || check_token (tokens_of pnh) "SCAN"
        = true -> 0 <= get_n_returns (info d))
  /\ (check_token (tokens_of pnh) "SCAN" = true ->
        beams_count_of d <> INT_MIN).

(** [image_pubs] after the image callback has gone through [images]: a
    field that had no publisher now holds a default-constructed one. *)
Definition with_default_publishers (images : list (ChanField * Image))
    (pubs : gmap ChanField Publisher) : gmap ChanField Publisher :=
  foldl (fun m it => match m !! fst it with
                     | Some _ => m
                     | None => <[fst it := InvalidPublisher]> m
                     end) pubs images.

(** The topic a topic map gives a channel field. *)
Fixpoint image_topic (topics : list (ChanField * string)) (f : ChanField)
  : option string :=
  match topics with
  | [] => None
  | it :: rest =>
      if decide (fst it = f) then Some (snd it) else image_topic rest f
  end.

Definition is_lidar_packet (p : Delivery) : bool :=
  match p with LidarPacket _ => true | ImuPacket _ => false end.

(** ** Running the monad *)

Lemma bind_run {A B} (c : M A) (k : A -> M B) d a d1 log1 :
  c d = Some (a, d1, log1) ->
  bind c k d =
    match k a d1 with
    | Some (b, d2, log2) => Some (b, d2, log1 ++ log2)
    | None => None
    end.
Proof. intros Hc. unfold bind. rewrite Hc. reflexivity. Qed.

Lemma bind_fault {A B} (c : M A) (k : A -> M B) d :
  c d = None -> bind c k d = None.
Proof. intros Hc. unfold bind. rewrite Hc. reflexivity. Qed.

(** The indexed publish loop succeeds when every message has a publisher,
    leaves the driver as it was, and publishes message [i] on publisher
    [i]. *)
Lemma publish_from {A} (pubs : OusterDriver -> list Publisher)
    (wrap : A -> Msg) (messages : list A) d :
  forall ms k ps,
    drop k (pubs d) = ps -> drop k messages = ms ->
    (length ms <= length ps)%nat ->
    for_each (seq k (length ms)) (fun i =>
      let* d := get in
      let* pub := vector_at (pubs d) i in
      let* m := lift_option (messages !! i) in
      publish pub (wrap m)) d
    = Some (tt, d, zip_with (fun p m => Publish p (wrap m)) ps ms).
Proof.
  induction ms as [|m ms IH]; intros k ps Hps Hms Hlen.
  - destruct ps; reflexivity.
  - destruct ps as [|p ps]; [simpl in Hlen; lia|].
    assert (Hp : pubs d !! k = Some p).
    { rewrite <- (Nat.add_0_r k), <- lookup_drop, Hps. reflexivity. }
    assert (Hm : messages !! k = Some m).
    { rewrite <- (Nat.add_0_r k), <- lookup_drop, Hms. reflexivity. }
    simpl length. simpl seq. simpl for_each.
    erewrite bind_run; last first.
    { unfold bind, get, vector_at, lift_option, publish, emit, ret.
      rewrite Hp, Hm. reflexivity. }
    rewrite (IH (S k) ps).
    + reflexivity.
    + rewrite (drop_S _ _ _ Hp) in Hps. congruence.
    + rewrite (drop_S _ _ _ Hm) in Hms. congruence.
    + simpl in Hlen. lia.
Qed.

Lemma publish_by_index_run {A} (pubs : OusterDriver -> list Publisher)
    (wrap : A -> Msg) (messages : list A) d :
  (length messages <= length (pubs d))%nat ->
  publish_by_index pubs wrap messages d
  = Some (tt, d, delivery (pubs d) wrap messages).
Proof.
  intros Hlen. unfold publish_by_index, delivery.
  apply (publish_from pubs wrap messages d messages 0%nat (pubs d));
    [reflexivity | reflexivity | exact Hlen].
Qed.

(** With a message past the last publisher the loop indexes the vector
    out of range. *)
Lemma publish_from_out_of_range {A} (pubs : OusterDriver -> list Publisher)
    (wrap : A -> Msg) (messages : list A) d :
  forall ms k ps,
    drop k (pubs d) = ps -> drop k messages = ms ->
    (length ps < length ms)%nat ->
    for_each (seq k (length ms)) (fun i =>
      let* d := get in
      let* pub := vector_at (pubs d) i in
      let* m := lift_option (messages !! i) in
      publish pub (wrap m)) d
    = None.
Proof.
  induction ms as [|m ms IH]; intros k ps Hps Hms Hlen.
  - simpl in Hlen. lia.
  - assert (Hm : messages !! k = Some m).
    { rewrite <- (Nat.add_0_r k), <- lookup_drop, Hms. reflexivity. }
    simpl length. simpl seq. simpl for_each.
    destruct ps as [|p ps].
    + assert (Hp : pubs d !! k = None).
      { rewrite <- (Nat.add_0_r k), <- lookup_drop, Hps. reflexivity. }
      apply bind_fault.
      unfold bind, get, vector_at, lift_option, fault.
      rewrite Hp. reflexivity.
    + assert (Hp : pubs d !! k = Some p).
      { rewrite <- (Nat.add_0_r k), <- lookup_drop, Hps. reflexivity. }
      erewrite bind_run; last first.
      { unfold bind, get, vector_at, lift_option, publish, emit, ret.
        rewrite Hp, Hm. reflexivity. }
      rewrite (IH (S k) ps).
      * reflexivity.
      * rewrite (drop_S _ _ _ Hp) in Hps. congruence.
      * rewrite (drop_S _ _ _ Hm) in Hms. congruence.
      * simpl in Hlen. lia.
Qed.

Lemma publish_by_index_out_of_range {A}
    (pubs : OusterDriver -> list Publisher) (wrap : A -> Msg)
    (messages : list A) d :
  (length (pubs d) < length messages)%nat ->
  publish_by_index pubs wrap messages d = None.
Proof.
  intros Hlen. unfold publish_by_index.
  apply (publish_from_out_of_range pubs wrap messages d messages 0%nat
           (pubs d)); [reflexivity | reflexivity | exact Hlen].
Qed.

(** Unfolds the primitives of the monad in a run over a given driver. *)
Ltac run_prim :=
  unfold image_pubs_at, vector_at, vector_set, advertise, publish,
    lift_option, emit, modify, get, ret, fault, when;
  unfold bind; cbv beta iota.

(** The image loop, when every field of the frame has a publisher. *)
Lemma image_loop_run (images : list (ChanField * Image)) d :
  (forall it, it ∈ images -> is_Some (image_pubs d !! fst it)) ->
  for_each images (fun it =>
    let* pub := image_pubs_at (fst it) in
    publish pub (ImageMsg (snd it))) d
  = Some (tt, d, image_delivery (image_pubs d) images).
Proof.
  unfold image_delivery.
  induction images as [|it images IH]; intros Hdom; [reflexivity|].
  simpl for_each.
  destruct (Hdom it) as [p Hp]; [left|].
  erewrite bind_run; last first.
  { run_prim. rewrite Hp. reflexivity. }
  rewrite IH.
  - cbn [map]. rewrite Hp. reflexivity.
  - intros it' Hin. apply Hdom. by right.
Qed.

(** The loop that fills a resized publisher vector. *)
Lemma advertise_loop_run (sel : OusterDriver -> list Publisher)
    (upd : list Publisher -> OusterDriver -> OusterDriver)
    (ty : MsgType) (base : string) d :
  (forall v d, sel (upd v d) = v) ->
  (forall v w d, upd v (upd w d) = upd v d) ->
  forall m k done rest,
    length done = k -> length rest = m ->
    for_each (seq k m) (fun i =>
      let* pub := advertise ty (topic_for_return base (Z.of_nat i)) 10 in
      vector_set sel upd i pub) (upd (done ++ rest) d)
    = Some (tt,
            upd (done ++ map (fun i => Advertised ty
                                (topic_for_return base (Z.of_nat i)) 10)
                           (seq k m)) d,
            map (fun i => Advertise ty
                   (topic_for_return base (Z.of_nat i)) 10) (seq k m)).
Proof.
  intros Hsel Hupd.
  induction m as [|m IH]; intros k done rest Hk Hm.
  - destruct rest; [|discriminate]. reflexivity.
  - destruct rest as [|r rest]; [discriminate|].
    simpl seq. simpl for_each.
    erewrite bind_run; last first.
    { run_prim. rewrite Hsel, bool_decide_true.
      - reflexivity.
      - rewrite length_app. simpl. lia. }
    rewrite Hupd.
    replace (<[k:=_]> (done ++ r :: rest))
      with ((done ++ [Advertised ty (topic_for_return base (Z.of_nat k)) 10])
              ++ rest).
    2:{ rewrite <- Hk, <- (Nat.add_0_r (length done)), insert_app_r.
        simpl. by rewrite <- app_assoc. }
    rewrite (IH (S k)).
    + simpl. by rewrite <- app_assoc.
    + rewrite length_app. simpl. lia.
    + simpl in Hm. lia.
Qed.

Lemma advertise_returns_run (sel : OusterDriver -> list Publisher)
    (upd : list Publisher -> OusterDriver -> OusterDriver)
    (ty : MsgType) (base : string) (num_returns : Z) d :
  (forall v d, sel (upd v d) = v) ->
  (forall v w d, upd v (upd w d) = upd v d) ->
  0 <= num_returns ->
  advertise_returns sel upd ty base num_returns d
  = Some (tt, upd (return_pubs ty base num_returns) d,
          return_adverts ty base num_returns).
Proof.
  intros Hsel Hupd Hn. unfold advertise_returns.
  destruct (num_returns <? 0) eqn:Hneg; [lia|].
  erewrite bind_run; last reflexivity.
  pose proof (advertise_loop_run sel upd ty base d Hsel Hupd
                (Z.to_nat num_returns) 0%nat []
                (resize (Z.to_nat num_returns) InvalidPublisher (sel d)))
    as Hloop.
  simpl app in Hloop. rewrite Hloop.
  - reflexivity.
  - reflexivity.
  - apply length_resize.
Qed.

(** A negative return count makes [resize] throw. *)
Lemma advertise_returns_negative (sel : OusterDriver -> list Publisher)
    (upd : list Publisher -> OusterDriver -> OusterDriver)
    (ty : MsgType) (base : string) (num_returns : Z) d :
  num_returns < 0 ->
  advertise_returns sel upd ty base num_returns d = None.
Proof.
  intros Hn. unfold advertise_returns.
  destruct (num_returns <? 0) eqn:Hneg; [|lia]. reflexivity.
Qed.

Lemma image_advertise_run (topics : list (ChanField * string)) :
  forall pubs d,
    for_each topics (fun it =>
      let* pub := advertise ImageT (snd it) 10 in
      let* d := get in
      modify (set_image_pubs (<[fst it := pub]> (image_pubs d))))
      (set_image_pubs pubs d)
    = Some (tt, set_image_pubs (image_pubs_for topics pubs) d,
            image_adverts topics).
Proof.
  induction topics as [|it topics IH]; intros pubs d; [reflexivity|].
  simpl for_each.
  erewrite bind_run; last reflexivity.
  match goal with
  | |- context [for_each topics _ ?st] =>
      change st with
        (set_image_pubs (<[fst it := Advertised ImageT (snd it) 10]> pubs) d)
  end.
  rewrite IH. reflexivity.
Qed.

(** ** The branches of [create_publishers] *)

Lemma create_imu_run (pnh : Params) (offset_ns : Z) d :
  offset_to_ns (offset_of pnh) = Some offset_ns ->
  create_imu (param (p_timestamp_mode pnh) "") (offset_of pnh) d
  = Some (tt,
          set_imu_packet_handler (Some (imu_handler_for pnh offset_ns d))
            (set_imu_pub (Advertised ImuT "imu" 100) d),
          [Advertise ImuT "imu" 100]).
Proof.
  intros Hns. unfold create_imu. run_prim. rewrite Hns. reflexivity.
Qed.

Lemma create_pcl_run (pnh : Params) (num_returns : Z) d :
  0 <= num_returns ->
  create_pcl pnh num_returns (threshold_of pnh) d
  = Some (pcl_processor pnh d,
          set_lidar_pubs (return_pubs PointCloud2T "points" num_returns) d,
          return_adverts PointCloud2T "points" num_returns
          ++ pcl_warning pnh d).
Proof.
  intros Hn. unfold create_pcl.
  erewrite bind_run; last first.
  { apply advertise_returns_run; [reflexivity | reflexivity | exact Hn]. }
  unfold pcl_warning. run_prim. cbn [info tf_bcast set_lidar_pubs].
  destruct (_ && _); reflexivity.
Qed.

Lemma create_scan_run (pnh : Params) (num_returns : Z) d :
  0 <= num_returns ->
  beams_count_of d <> INT_MIN ->
  create_scan pnh num_returns (threshold_of pnh) d
  = Some (scan_processor pnh d,
          set_scan_pubs (return_pubs LaserScanT "scan" num_returns) d,
          return_adverts LaserScanT "scan" num_returns
          ++ scan_warning pnh d).
Proof.
  intros Hn Hbeams. unfold create_scan.
  erewrite bind_run; last first.
  { apply advertise_returns_run; [reflexivity | reflexivity | exact Hn]. }
  unfold scan_warning, scan_ring_of, beams_count_of in *.
  run_prim. cbn [info tf_bcast set_scan_pubs].
  destruct (static_cast_int (get_beams_count (info d)) =? INT_MIN) eqn:Hb;
    [lia|].
  destruct (negb _); reflexivity.
Qed.

Lemma create_img_run (pnh : Params) (num_returns : Z) d :
  create_img num_returns (threshold_of pnh) d
  = Some (img_processor pnh d,
          set_image_pubs
            (image_pubs_for (which_map num_returns) (image_pubs d)) d,
          image_adverts (which_map num_returns)).
Proof.
  unfold create_img.
  erewrite bind_run; last first.
  { replace d with (set_image_pubs (image_pubs d) d) at 1
      by (destruct d; reflexivity).
    apply image_advertise_run. }
  run_prim. by rewrite app_nil_r.
Qed.

Lemma bind_run_Some {A B} (c : M A) (k : A -> M B) d a d1 log1 b d2 log2 :
  c d = Some (a, d1, log1) ->
  k a d1 = Some (b, d2, log2) ->
  bind c k d = Some (b, d2, log1 ++ log2).
Proof. intros Hc Hk. unfold bind. rewrite Hc, Hk. reflexivity. Qed.

(** Runs a sequence of branches of [create_publishers], given the facts
    the branches need. *)
Ltac solve_run Hns Hn Hbeams :=
  cbv beta;
  lazymatch goal with
  | |- bind _ _ _ = Some _ =>
      eapply bind_run_Some;
      [solve_run Hns Hn Hbeams | solve_run Hns Hn Hbeams]
  | |- create_imu _ _ _ = Some _ => apply create_imu_run; exact Hns
  | |- create_pcl _ _ _ _ = Some _ =>
      apply create_pcl_run; apply Hn; reflexivity
  | |- create_scan _ _ _ _ = Some _ =>
      apply create_scan_run; [apply Hn | apply Hbeams]; reflexivity
  | |- create_img _ _ _ = Some _ => apply create_img_run
  | |- lift_option _ _ = Some _ => rewrite Hns; reflexivity
  | |- _ => reflexivity
  end.

(** [create_publishers] runs to completion whenever the offset converts
    to a 64-bit integer, the return count is not negative when a vector
    of publishers is sized by it, and the beam count is not the least
    [int] when the scan ring is clamped against it; it leaves the driver
    [configured] and logs [configuration_log]. *)
Lemma create_publishers_run (pnh : Params) (offset_ns : Z) d :
  offset_to_ns (offset_of pnh) = Some offset_ns ->
  (check_token (tokens_of pnh) "PCL" || check_token (tokens_of pnh) "SCAN"
     = true -> 0 <= get_n_returns (info d)) ->
  (check_token (tokens_of pnh) "SCAN" = true ->
     beams_count_of d <> INT_MIN) ->
  create_publishers pnh d
  = Some (tt, configured pnh offset_ns d, configuration_log pnh d).
Proof.
  intros Hns Hn Hbeams.
  unfold create_publishers, configured, configuration_log,
    lidar_handler_for, processors_for.
  fold (offset_of pnh) (threshold_of pnh) (tokens_of pnh).
  destruct (check_token (tokens_of pnh) "IMU");
    destruct (check_token (tokens_of pnh) "PCL");
    destruct (check_token (tokens_of pnh) "SCAN");
    destruct (check_token (tokens_of pnh) "IMG");
    cbn [when orb app];
    (refine (eq_trans (y := Some (_, _, _)) _ _);
     [solve_run Hns Hn Hbeams|]).
  all: unfold processors_for; destruct d; cbn.
  all: rewrite ?app_nil_r, <- ?app_assoc; reflexivity.
Qed.

(** ** Frame validation *)

Lemma delivery_length {A} (pubs : list Publisher) (wrap : A -> Msg)
    (messages : list A) :
  (length messages <= length pubs)%nat ->
  length (delivery pubs wrap messages) = length messages.
Proof. intros Hlen. unfold delivery. rewrite length_zip_with. lia. Qed.

Lemma delivery_lookup {A} (pubs : list Publisher) (wrap : A -> Msg)
    (messages : list A) i p m :
  pubs !! i = Some p -> messages !! i = Some m ->
  delivery pubs wrap messages !! i = Some (Publish p (wrap m)).
Proof.
  intros Hp Hm. unfold delivery. rewrite lookup_zip_with, Hp, Hm.
  reflexivity.
Qed.

Lemma publishes_delivery {A} (pubs : list Publisher) (wrap : A -> Msg)
    (messages : list A) :
  publishes (delivery pubs wrap messages)
  = zip_with (fun p m => (p, wrap m)) pubs messages.
Proof.
  unfold delivery, publishes. revert messages.
  induction pubs as [|p pubs IH]; intros [|m messages]; try reflexivity.
  simpl. by rewrite IH.
Qed.

Lemma point_cloud_dropped (threshold : Z) d
    (data : OutputType (list PointCloud2)) :
  num_valid_columns data < threshold ->
  point_cloud_callback threshold data d
  = Some (tt, d, [Warn (IncompleteCloud (num_valid_columns data) threshold)]).
Proof.
  intros Hlt. unfold point_cloud_callback.
  destruct (num_valid_columns data <? threshold) eqn:Hcmp; [|lia].
  reflexivity.
Qed.

Lemma point_cloud_forwarded (threshold : Z) d
    (data : OutputType (list PointCloud2)) :
  threshold <= num_valid_columns data ->
  (length (msgs data) <= length (lidar_pubs d))%nat ->
  point_cloud_callback threshold data d
  = Some (tt, d, delivery (lidar_pubs d) PointCloud2Msg (msgs data)).
Proof.
  intros Hge Hlen. unfold point_cloud_callback.
  destruct (num_valid_columns data <? threshold) eqn:Hcmp; [lia|].
  by apply publish_by_index_run.
Qed.

Lemma laser_scan_dropped (threshold : Z) d
    (data : OutputType (list LaserScan)) :
  num_valid_columns data < threshold ->
  laser_scan_callback threshold data d = Some (tt, d, []).
Proof.
  intros Hlt. unfold laser_scan_callback.
  destruct (num_valid_columns data <? threshold) eqn:Hcmp; [|lia].
  reflexivity.
Qed.

Lemma laser_scan_forwarded (threshold : Z) d
    (data : OutputType (list LaserScan)) :
  threshold <= num_valid_columns data ->
  (length (msgs data) <= length (scan_pubs d))%nat ->
  laser_scan_callback threshold data d
  = Some (tt, d, delivery (scan_pubs d) LaserScanMsg (msgs data)).
Proof.
  intros Hge Hlen. unfold laser_scan_callback.
  destruct (num_valid_columns data <? threshold) eqn:Hcmp; [lia|].
  by apply publish_by_index_run.
Qed.

Lemma image_dropped (threshold : Z) d
    (data : OutputType (list (ChanField * Image))) :
  num_valid_columns data < threshold ->
  image_callback threshold data d = Some (tt, d, []).
Proof.
  intros Hlt. unfold image_callback.
  destruct (num_valid_columns data <? threshold) eqn:Hcmp; [|lia].
  reflexivity.
Qed.

Lemma image_forwarded (threshold : Z) d
    (data : OutputType (list (ChanField * Image))) :
  threshold <= num_valid_columns data ->
  (forall it, it ∈ msgs data -> is_Some (image_pubs d !! fst it)) ->
  image_callback threshold data d
  = Some (tt, d, image_delivery (image_pubs d) (msgs data)).
Proof.
  intros Hge Hdom. unfold image_callback.
  destruct (num_valid_columns data <? threshold) eqn:Hcmp; [lia|].
  by apply image_loop_run.
Qed.

(** C1. A frame whose valid column count is below the threshold is
    dropped: its callback returns without a publish call, for point
    clouds, laser scans and images alike.  A frame whose count reaches the
    threshold is delivered exactly once: the callback leaves the driver
    unchanged and its log is one publish call per message of the frame,
    sub-payload [i] on publisher [i], each image on the publisher of its
    channel field.  The frames are those a processor produces: no more
    sub-payloads than publishers, and only channel fields that have a
    publisher. *)
Theorem frame_filter_delivers_once (threshold : Z) d
    (cloud : OutputType (list PointCloud2))
    (scan : OutputType (list LaserScan))
    (image : OutputType (list (ChanField * Image))) :
  (length (msgs cloud) <= length (lidar_pubs d))%nat ->
  (length (msgs scan) <= length (scan_pubs d))%nat ->
  (forall it, it ∈ msgs image -> is_Some (image_pubs d !! fst it)) ->
  (num_valid_columns cloud < threshold ->
     exists log, point_cloud_callback threshold cloud d = Some (tt, d, log)
                 /\ publishes log = [])
  /\ (threshold <= num_valid_columns cloud ->
        point_cloud_callback threshold cloud d
        = Some (tt, d, delivery (lidar_pubs d) PointCloud2Msg (msgs cloud))
        /\ length (delivery (lidar_pubs d) PointCloud2Msg (msgs cloud))
           = length (msgs cloud))
  /\ (num_valid_columns scan < threshold ->
        laser_scan_callback threshold scan d = Some (tt, d, []))
  /\ (threshold <= num_valid_columns scan ->
        laser_scan_callback threshold scan d
        = Some (tt, d, delivery (scan_pubs d) LaserScanMsg (msgs scan))
        /\ length (delivery (scan_pubs d) LaserScanMsg (msgs scan))
           = length (msgs scan))
  /\ (num_valid_columns image < threshold ->
        image_callback threshold image d = Some (tt, d, []))
  /\ (threshold <= num_valid_columns image ->
        image_callback threshold image d
        = Some (tt, d, image_delivery (image_pubs d) (msgs image))
        /\ length (image_delivery (image_pubs d) (msgs image))
           = length (msgs image)).
Proof.
  intros Hcloud Hscan Himage. repeat split.
  - intros Hlt. eexists. split; [by apply point_cloud_dropped|reflexivity].
  - by apply point_cloud_forwarded.
  - by apply delivery_length.
  - by apply laser_scan_dropped.
  - by apply laser_scan_forwarded.
  - by apply delivery_length.
  - by apply image_dropped.
  - by apply image_forwarded.
  - unfold image_delivery. by rewrite length_map.
Qed.

(** C8. Dropping a frame with 3 valid columns against a threshold of 5:
    the point cloud callback reports the warning with both counts, the
    laser scan and image callbacks return without reporting anything. *)
Theorem only_point_cloud_drop_warns d (clouds : list PointCloud2)
    (scans : list LaserScan) (images : list (ChanField * Image)) :
  point_cloud_callback 5 {| num_valid_columns := 3; msgs := clouds |} d
  = Some (tt, d, [Warn (IncompleteCloud 3 5)])
  /\ laser_scan_callback 5 {| num_valid_columns := 3; msgs := scans |} d
     = Some (tt, d, [])
  /\ image_callback 5 {| num_valid_columns := 3; msgs := images |} d
     = Some (tt, d, []).
Proof. repeat split. Qed.

(** ** Dispatch *)

Lemma on_lidar_packet_msg_idle (pkt : RawPacket) d :
  lidar_packet_handler d = None ->
  on_lidar_packet_msg pkt d = Some (tt, d, []).
Proof.
  intros Hnone. unfold on_lidar_packet_msg. run_prim. rewrite Hnone.
  reflexivity.
Qed.

Lemma on_imu_packet_msg_idle (pkt : RawPacket) d :
  imu_packet_handler d = None ->
  on_imu_packet_msg pkt d = Some (tt, d, []).
Proof.
  intros Hnone. unfold on_imu_packet_msg. run_prim. rewrite Hnone.
  reflexivity.
Qed.

Lemma on_imu_packet_msg_run (pkt : RawPacket) d h :
  imu_packet_handler d = Some h ->
  on_imu_packet_msg pkt d
  = Some (tt, d, [Publish (imu_pub d) (ImuMsg (imu_handler_call h pkt))]).
Proof.
  intros Hsome. unfold on_imu_packet_msg. run_prim. rewrite Hsome.
  reflexivity.
Qed.

(** C9. With no lidar packet handler a lidar packet, and with no IMU
    packet handler an inertial packet, is delivered without effect: the
    call returns, the driver is unchanged and the log is empty.  The
    driver starts without handlers, so until [create_publishers] has run
    every sequence of packets is without effect. *)
Theorem dispatch_without_handler_is_noop (pkt : RawPacket) d :
  (lidar_packet_handler d = None ->
     on_lidar_packet_msg pkt d = Some (tt, d, []))
  /\ (imu_packet_handler d = None ->
        on_imu_packet_msg pkt d = Some (tt, d, []))
  /\ (forall inf tf ps,
        deliver_all ps (new_driver inf tf)
        = Some (tt, new_driver inf tf, [])).
Proof.
  split; [apply on_lidar_packet_msg_idle|].
  split; [apply on_imu_packet_msg_idle|].
  intros inf tf ps. unfold deliver_all.
  induction ps as [|p ps IH]; [reflexivity|].
  simpl for_each. erewrite bind_run; last first.
  { destruct p; simpl;
      [apply on_lidar_packet_msg_idle | apply on_imu_packet_msg_idle];
      reflexivity. }
  rewrite IH. reflexivity.
Qed.


(** ** Reading the configuration log *)

Lemma ring_warnings_app (l1 l2 : list Event) :
  ring_warnings (l1 ++ l2) = ring_warnings l1 ++ ring_warnings l2.
Proof.
  unfold ring_warnings, warnings. by rewrite omap_app, List.filter_app.
Qed.

Lemma ring_warnings_return_adverts ty base n :
  ring_warnings (return_adverts ty base n) = [].
Proof.
  unfold return_adverts. induction (seq 0 (Z.to_nat n)); [reflexivity|].
  exact IHl.
Qed.

Lemma ring_warnings_image_adverts topics :
  ring_warnings (image_adverts topics) = [].
Proof. induction topics; [reflexivity|]. exact IHtopics. Qed.

Lemma ring_warnings_pcl_warning pnh d :
  ring_warnings (pcl_warning pnh d) = [].
Proof. unfold pcl_warning. destruct (_ && _); reflexivity. Qed.

Lemma advertised_app ty (l1 l2 : list Event) :
  advertised ty (l1 ++ l2) = advertised ty l1 ++ advertised ty l2.
Proof. unfold advertised. by rewrite omap_app. Qed.

Lemma advertised_cons ty ty' topic queue_size (log : list Event) :
  advertised ty (Advertise ty' topic queue_size :: log)
  = if decide (ty' = ty) then topic :: advertised ty log
    else advertised ty log.
Proof. unfold advertised. simpl. by destruct (decide (ty' = ty)). Qed.

Lemma advertised_return_adverts ty ty' base n :
  advertised ty (return_adverts ty' base n)
  = if decide (ty' = ty)
    then map (fun i => topic_for_return base (Z.of_nat i))
           (seq 0 (Z.to_nat n))
    else [].
Proof.
  unfold return_adverts.
  induction (seq 0 (Z.to_nat n)) as [|i l IH];
    [by destruct (decide (ty' = ty))|].
  cbn [map]. rewrite advertised_cons, IH.
  by destruct (decide (ty' = ty)).
Qed.

Lemma advertised_image_adverts ty topics :
  advertised ty (image_adverts topics)
  = if decide (ImageT = ty) then map snd topics else [].
Proof.
  unfold image_adverts.
  induction topics as [|it l IH]; [by destruct (decide (ImageT = ty))|].
  cbn [map]. rewrite advertised_cons, IH.
  by destruct (decide (ImageT = ty)).
Qed.

Lemma advertised_pcl_warning ty pnh d :
  advertised ty (pcl_warning pnh d) = [].
Proof. unfold pcl_warning. destruct (_ && _); reflexivity. Qed.

Lemma advertised_scan_warning ty pnh d :
  advertised ty (scan_warning pnh d) = [].
Proof. unfold scan_warning. destruct (negb _); reflexivity. Qed.

(** ** The scan ring *)

Lemma clamp_scan_ring_range (scan_ring beams_count : Z) :
  1 <= beams_count ->
  0 <= clamp_scan_ring scan_ring beams_count <= beams_count - 1.
Proof. unfold clamp_scan_ring. lia. Qed.

Lemma clamp_scan_ring_inside (scan_ring beams_count : Z) :
  0 <= scan_ring <= beams_count - 1 ->
  clamp_scan_ring scan_ring beams_count = scan_ring.
Proof. unfold clamp_scan_ring. lia. Qed.

Lemma clamp_scan_ring_below (scan_ring beams_count : Z) :
  1 <= beams_count -> scan_ring < 0 ->
  clamp_scan_ring scan_ring beams_count = 0.
Proof. unfold clamp_scan_ring. lia. Qed.

Lemma clamp_scan_ring_above (scan_ring beams_count : Z) :
  1 <= beams_count -> beams_count <= scan_ring ->
  clamp_scan_ring scan_ring beams_count = beams_count - 1.
Proof. unfold clamp_scan_ring. lia. Qed.

(** C5. On a sensor with at least one beam the ring handed to the laser
    scan processor lies in [0, beams_count - 1]: a request inside the
    range is kept, a negative request (-1) gives ring 0, a request of
    [beams_count] or more gives ring [beams_count - 1].  Running
    [create_publishers] with SCAN enabled builds the laser scan processor
    on that ring and logs the scan ring warning once when the ring differs
    from the request, and not at all when it does not. *)
Theorem scan_ring_is_clamped_and_reported (pnh : Params) (offset_ns : Z) d :
  check_token (tokens_of pnh) "SCAN" = true ->
  offset_to_ns (offset_of pnh) = Some offset_ns ->
  0 <= get_n_returns (info d) ->
  1 <= beams_count_of d ->
  0 <= scan_ring_of pnh d <= beams_count_of d - 1
  /\ (0 <= param (p_scan_ring pnh) 0 <= beams_count_of d - 1 ->
        scan_ring_of pnh d = param (p_scan_ring pnh) 0)
  /\ (param (p_scan_ring pnh) 0 = -1 -> scan_ring_of pnh d = 0)
  /\ (param (p_scan_ring pnh) 0 = beams_count_of d ->
        scan_ring_of pnh d = beams_count_of d - 1)
  /\ exists d' log h,
       create_publishers pnh d = Some (tt, d', log)
       /\ lidar_packet_handler d' = Some h
       /\ LaserScanProcessor (info d) (lidar_frame_id (tf_bcast d))
            (scan_ring_of pnh d) (threshold_of pnh)
          ∈ lidar_scan_handlers h
       /\ (forall inf frame ring minv,
             LaserScanProcessor inf frame ring minv ∈ lidar_scan_handlers h ->
             ring = scan_ring_of pnh d)
       /\ ring_warnings log
          = if scan_ring_of pnh d =? param (p_scan_ring pnh) 0 then []
            else [ScanRingClamped (beams_count_of d) (scan_ring_of pnh d)].
Proof.
  intros Hscan Hns Hn Hbeams.
  split; [by apply clamp_scan_ring_range|].
  split; [apply clamp_scan_ring_inside|].
  split; [intros Hreq; apply clamp_scan_ring_below; lia|].
  split; [intros Hreq; apply clamp_scan_ring_above; lia|].
  exists (configured pnh offset_ns d), (configuration_log pnh d),
    (lidar_handler_for pnh offset_ns d).
  split.
  { apply create_publishers_run; [exact Hns | intros _; exact Hn |].
    intros _. unfold INT_MIN. lia. }
  split.
  { unfold configured. cbn [lidar_packet_handler]. rewrite Hscan.
    by rewrite orb_true_r. }
  unfold lidar_handler_for. cbn [lidar_scan_handlers].
  unfold processors_for. rewrite Hscan.
  split.
  { apply elem_of_app. right. apply elem_of_app. left. left. }
  split.
  { intros inf frame ring minv Hin.
    unfold pcl_processor, scan_processor, img_processor in Hin.
    destruct (check_token _ "PCL"), (check_token _ "IMG");
      simpl in Hin; rewrite ?elem_of_cons, ?elem_of_nil in Hin;
      decompose [or] Hin; try contradiction; try discriminate;
      congruence. }
  unfold configuration_log. rewrite Hscan.
  rewrite !ring_warnings_app.
  rewrite ring_warnings_return_adverts.
  replace (ring_warnings (if check_token (tokens_of pnh) "IMU"
                          then [Advertise ImuT "imu" 100] else []))
    with (@nil Warning) by (by destruct (check_token _ "IMU")).
  replace (ring_warnings (if check_token (tokens_of pnh) "PCL" then _
                          else []))
    with (@nil Warning).
  2:{ destruct (check_token _ "PCL"); [|reflexivity].
      by rewrite ring_warnings_app, ring_warnings_return_adverts,
        ring_warnings_pcl_warning. }
  replace (ring_warnings (if check_token (tokens_of pnh) "IMG" then _
                          else []))
    with (@nil Warning).
  2:{ destruct (check_token _ "IMG"); [|reflexivity].
      by rewrite ring_warnings_image_adverts. }
  unfold scan_warning. simpl.
  destruct (scan_ring_of pnh d =? param (p_scan_ring pnh) 0); reflexivity.
Qed.

(** ** Image publishers *)

Lemma image_pubs_for_other (topics : list (ChanField * string)) :
  forall pubs f,
    f ∉ map fst topics -> image_pubs_for topics pubs !! f = pubs !! f.
Proof.
  induction topics as [|it topics IH]; intros pubs f Hnotin; [reflexivity|].
  unfold image_pubs_for in *. cbn [foldl].
  rewrite IH.
  - apply lookup_insert_ne. intros Heq. apply Hnotin. cbn [map].
    rewrite Heq. left.
  - intros Hin. apply Hnotin. cbn [map]. by right.
Qed.

Lemma image_pubs_for_lookup (topics : list (ChanField * string)) :
  forall pubs f topic,
    NoDup (map fst topics) -> (f, topic) ∈ topics ->
    image_pubs_for topics pubs !! f = Some (Advertised ImageT topic 10).
Proof.
  induction topics as [|it topics IH]; intros pubs f topic Hnodup Hin.
  - by apply elem_of_nil in Hin.
  - cbn [map] in Hnodup. apply NoDup_cons in Hnodup as [Hfresh Hnodup].
    apply elem_of_cons in Hin as [<-|Hin].
    + change (image_pubs_for ((f, topic) :: topics) pubs)
        with (image_pubs_for topics
                (<[f := Advertised ImageT topic 10]> pubs)).
      rewrite image_pubs_for_other by exact Hfresh.
      apply lookup_insert_eq.
    + change (image_pubs_for (it :: topics) pubs)
        with (image_pubs_for topics
                (<[fst it := Advertised ImageT (snd it) 10]> pubs)).
      by apply IH.
Qed.

Lemma image_pubs_for_dom (topics : list (ChanField * string)) :
  forall pubs,
    dom (image_pubs_for topics pubs)
    = list_to_set (map fst topics) ∪ dom pubs.
Proof.
  induction topics as [|it topics IH]; intros pubs.
  - cbn [map list_to_set image_pubs_for foldl].
    by rewrite (left_id_L ∅ (∪)).
  - change (image_pubs_for (it :: topics) pubs)
      with (image_pubs_for topics
              (<[fst it := Advertised ImageT (snd it) 10]> pubs)).
    rewrite IH, dom_insert_L. cbn [map list_to_set].
    rewrite (assoc_L (∪)).
    by rewrite (comm_L (∪) (list_to_set (map fst topics)) {[fst it]}).
Qed.

Lemma which_map_keys_NoDup (num_returns : Z) :
  NoDup (map fst (which_map num_returns)).
Proof.
  unfold which_map. destruct (num_returns =? 1); compute_done.
Qed.

(** C6. The topic map is chosen by the return count alone: for one
    return it is the map of the four fields RANGE, SIGNAL, REFLECTIVITY
    and NEAR_IR, for two returns the map of seven fields that adds RANGE2,
    SIGNAL2 and REFLECTIVITY2.  Running [create_publishers] with IMG
    enabled advertises one image topic per entry of the chosen map and
    stores the publisher under the entry's channel field, leaving the
    publishers of other fields alone; on a driver that had no image
    publisher there are then as many as the map has entries. *)
Theorem image_sinks_follow_return_count (pnh : Params) (offset_ns : Z) d :
  check_token (tokens_of pnh) "IMG" = true ->
  offset_to_ns (offset_of pnh) = Some offset_ns ->
  0 <= get_n_returns (info d) ->
  beams_count_of d <> INT_MIN ->
  map fst (which_map 1) = [RANGE; SIGNAL; REFLECTIVITY; NEAR_IR]
  /\ map fst (which_map 2)
     = [RANGE; RANGE2; SIGNAL; SIGNAL2; REFLECTIVITY; REFLECTIVITY2; NEAR_IR]
  /\ length (which_map 1) = 4%nat
  /\ length (which_map 2) = 7%nat
  /\ exists d' log,
       create_publishers pnh d = Some (tt, d', log)
       /\ advertised ImageT log
          = map snd (which_map (get_n_returns (info d)))
       /\ (forall f topic,
             (f, topic) ∈ which_map (get_n_returns (info d)) ->
             image_pubs d' !! f = Some (Advertised ImageT topic 10))
       /\ (forall f,
             f ∉ map fst (which_map (get_n_returns (info d))) ->
             image_pubs d' !! f = image_pubs d !! f)
       /\ (image_pubs d = ∅ ->
             size (image_pubs d')
             = length (which_map (get_n_returns (info d)))).
Proof.
  intros Himg Hns Hn Hbeams.
  do 4 (split; [reflexivity|]).
  exists (configured pnh offset_ns d), (configuration_log pnh d).
  split.
  { apply create_publishers_run; [exact Hns | intros _; exact Hn |].
    intros _. exact Hbeams. }
  unfold configured. cbn [image_pubs]. rewrite Himg.
  split.
  { unfold configuration_log. rewrite Himg.
    rewrite !advertised_app, advertised_image_adverts.
    replace (advertised ImageT (if check_token (tokens_of pnh) "IMU"
                                then [Advertise ImuT "imu" 100] else []))
      with (@nil string) by (by destruct (check_token _ "IMU")).
    replace (advertised ImageT (if check_token (tokens_of pnh) "PCL" then _
                                else []))
      with (@nil string).
    2:{ destruct (check_token _ "PCL"); [|reflexivity].
        by rewrite advertised_app, advertised_return_adverts,
          advertised_pcl_warning. }
    replace (advertised ImageT (if check_token (tokens_of pnh) "SCAN" then _
                                else []))
      with (@nil string).
    2:{ destruct (check_token _ "SCAN"); [|reflexivity].
        by rewrite advertised_app, advertised_return_adverts,
          advertised_scan_warning. }
    reflexivity. }
  split.
  { intros f topic Hin. apply image_pubs_for_lookup; [|exact Hin].
    apply which_map_keys_NoDup. }
  split; [intros f Hf; by apply image_pubs_for_other|].
  intros Hempty.
  rewrite <- size_dom, image_pubs_for_dom, Hempty, dom_empty_L,
    (right_id_L ∅ (∪)).
  rewrite size_list_to_set by apply which_map_keys_NoDup.
  by rewrite length_map.
Qed.

(** ** One publisher and one sub-payload per return *)

Lemma length_return_pubs ty base (n : Z) :
  length (return_pubs ty base n) = Z.to_nat n.
Proof. unfold return_pubs. by rewrite length_map, length_seq. Qed.

Lemma delivery_per_return {A} ty base (wrap : A -> Msg) (g : nat -> A)
    (n : Z) :
  delivery (return_pubs ty base n) wrap (map g (seq 0 (Z.to_nat n)))
  = return_delivery ty base (fun i => wrap (g i)) n.
Proof.
  unfold delivery, return_pubs, return_delivery.
  induction (seq 0 (Z.to_nat n)) as [|i l IH]; [reflexivity|].
  cbn [map zip_with]. by rewrite IH.
Qed.

Lemma length_return_delivery ty base (wrap : nat -> Msg) (n : Z) :
  0 <= n -> Z.of_nat (length (return_delivery ty base wrap n)) = n.
Proof.
  intros Hn. unfold return_delivery. rewrite length_map, length_seq. lia.
Qed.

(** A completed scan handed to the point cloud processor: the frame has
    one cloud per return, and is dropped or forwarded by the callback. *)
Lemma process_point_cloud (scan : LidarScan) d point_type inf frame apply
    minv :
  lidar_pubs d = return_pubs PointCloud2T "points" (get_n_returns inf) ->
  process (PointCloudProcessor point_type inf frame apply minv) scan d
  = Some (tt, d,
          if valid_column_count scan <? minv
          then [Warn (IncompleteCloud (valid_column_count scan) minv)]
          else return_delivery PointCloud2T "points"
                 (fun r => PointCloud2Msg
                             (point_cloud_of point_type inf frame apply r
                                scan))
                 (get_n_returns inf)).
Proof.
  intros Hpubs. cbn [process].
  destruct (valid_column_count scan <? minv) eqn:Hcmp.
  - apply point_cloud_dropped. cbn. lia.
  - rewrite point_cloud_forwarded.
    + cbn [msgs]. by rewrite Hpubs, delivery_per_return.
    + cbn. lia.
    + cbn [msgs]. rewrite Hpubs, length_return_pubs, length_map, length_seq.
      lia.
Qed.

Lemma process_laser_scan (scan : LidarScan) d inf frame ring minv :
  scan_pubs d = return_pubs LaserScanT "scan" (get_n_returns inf) ->
  process (LaserScanProcessor inf frame ring minv) scan d
  = Some (tt, d,
          if valid_column_count scan <? minv then []
          else return_delivery LaserScanT "scan"
                 (fun r => LaserScanMsg (laser_scan_of inf frame ring r scan))
                 (get_n_returns inf)).
Proof.
  intros Hpubs. cbn [process].
  destruct (valid_column_count scan <? minv) eqn:Hcmp.
  - apply laser_scan_dropped. cbn. lia.
  - rewrite laser_scan_forwarded.
    + cbn [msgs]. by rewrite Hpubs, delivery_per_return.
    + cbn. lia.
    + cbn [msgs]. rewrite Hpubs, length_return_pubs, length_map, length_seq.
      lia.
Qed.

(** C4. Running [create_publishers] with PCL (SCAN) enabled leaves in
    [lidar_pubs] ([scan_pubs]) exactly one publisher per return, the one
    at index [i] advertised on the topic of return [i].  A scan that
    passes the filter is then forwarded by the point cloud (laser scan)
    processor as one publish call per return, sub-payload [i] on the
    publisher of index [i]; their number is the return count, 2 on a
    dual-return sensor and 1 on a single-return one. *)
Theorem one_sink_and_sub_payload_per_return (pnh : Params) (offset_ns : Z)
    d (scan : LidarScan) :
  offset_to_ns (offset_of pnh) = Some offset_ns ->
  0 <= get_n_returns (info d) ->
  beams_count_of d <> INT_MIN ->
  threshold_of pnh <= valid_column_count scan ->
  exists d' log,
    create_publishers pnh d = Some (tt, d', log)
    /\ (check_token (tokens_of pnh) "PCL" = true ->
          lidar_pubs d'
          = return_pubs PointCloud2T "points" (get_n_returns (info d))
          /\ Z.of_nat (length (lidar_pubs d')) = get_n_returns (info d)
          /\ advertised PointCloud2T log
             = map (fun i => topic_for_return "points" (Z.of_nat i))
                 (seq 0 (Z.to_nat (get_n_returns (info d))))
          /\ (exists h, lidar_packet_handler d' = Some h
                        /\ pcl_processor pnh d ∈ lidar_scan_handlers h)
          /\ process (pcl_processor pnh d) scan d'
             = Some (tt, d',
                     return_delivery PointCloud2T "points"
                       (fun r => PointCloud2Msg
                          (point_cloud_of (param (p_point_type pnh) "original")
                             (info d) (point_cloud_frame_id (tf_bcast d))
                             (apply_lidar_to_sensor_transform (tf_bcast d))
                             r scan))
                       (get_n_returns (info d)))
          /\ forall wrap,
               Z.of_nat (length (return_delivery PointCloud2T "points" wrap
                                   (get_n_returns (info d))))
               = get_n_returns (info d))
    /\ (check_token (tokens_of pnh) "SCAN" = true ->
          scan_pubs d'
          = return_pubs LaserScanT "scan" (get_n_returns (info d))
          /\ Z.of_nat (length (scan_pubs d')) = get_n_returns (info d)
          /\ advertised LaserScanT log
             = map (fun i => topic_for_return "scan" (Z.of_nat i))
                 (seq 0 (Z.to_nat (get_n_returns (info d))))
          /\ (exists h, lidar_packet_handler d' = Some h
                        /\ scan_processor pnh d ∈ lidar_scan_handlers h)
          /\ process (scan_processor pnh d) scan d'
             = Some (tt, d',
                     return_delivery LaserScanT "scan"
                       (fun r => LaserScanMsg
                          (laser_scan_of (info d)
                             (lidar_frame_id (tf_bcast d))
                             (scan_ring_of pnh d) r scan))
                       (get_n_returns (info d)))
          /\ forall wrap,
               Z.of_nat (length (return_delivery LaserScanT "scan" wrap
                                   (get_n_returns (info d))))
               = get_n_returns (info d)).
Proof.
  intros Hns Hn Hbeams Hvalid.
  exists (configured pnh offset_ns d), (configuration_log pnh d).
  split.
  { apply create_publishers_run; [exact Hns | intros _; exact Hn |].
    intros _. exact Hbeams. }
  assert (Hpass : (valid_column_count scan <? threshold_of pnh) = false)
    by lia.
  split.
  - intros Hpcl.
    assert (Hpubs : lidar_pubs (configured pnh offset_ns d)
                    = return_pubs PointCloud2T "points"
                        (get_n_returns (info d))).
    { unfold configured. cbn [lidar_pubs]. by rewrite Hpcl. }
    split; [exact Hpubs|].
    split; [rewrite Hpubs, length_return_pubs; lia|].
    split.
    { unfold configuration_log. rewrite Hpcl.
      rewrite !advertised_app, advertised_return_adverts,
        advertised_pcl_warning.
      replace (advertised PointCloud2T
                 (if check_token (tokens_of pnh) "IMU"
                  then [Advertise ImuT "imu" 100] else []))
        with (@nil string) by (by destruct (check_token _ "IMU")).
      replace (advertised PointCloud2T
                 (if check_token (tokens_of pnh) "SCAN" then _ else []))
        with (@nil string).
      2:{ destruct (check_token _ "SCAN"); [|reflexivity].
          by rewrite advertised_app, advertised_return_adverts,
            advertised_scan_warning. }
      replace (advertised PointCloud2T
                 (if check_token (tokens_of pnh) "IMG" then _ else []))
        with (@nil string).
      2:{ destruct (check_token _ "IMG"); [|reflexivity].
          by rewrite advertised_image_adverts. }
      cbn. by rewrite !app_nil_r. }
    split.
    { eexists. split.
      - unfold configured. cbn [lidar_packet_handler]. rewrite Hpcl.
        reflexivity.
      - unfold lidar_handler_for, processors_for. cbn [lidar_scan_handlers].
        rewrite Hpcl. left. }
    split.
    { unfold pcl_processor. rewrite process_point_cloud by exact Hpubs.
      by rewrite Hpass. }
    intros wrap. by apply length_return_delivery.
  - intros Hscan.
    assert (Hpubs : scan_pubs (configured pnh offset_ns d)
                    = return_pubs LaserScanT "scan"
                        (get_n_returns (info d))).
    { unfold configured. cbn [scan_pubs]. by rewrite Hscan. }
    split; [exact Hpubs|].
    split; [rewrite Hpubs, length_return_pubs; lia|].
    split.
    { unfold configuration_log. rewrite Hscan.
      rewrite !advertised_app, advertised_return_adverts,
        advertised_scan_warning.
      replace (advertised LaserScanT
                 (if check_token (tokens_of pnh) "IMU"
                  then [Advertise ImuT "imu" 100] else []))
        with (@nil string) by (by destruct (check_token _ "IMU")).
      replace (advertised LaserScanT
                 (if check_token (tokens_of pnh) "PCL" then _ else []))
        with (@nil string).
      2:{ destruct (check_token _ "PCL"); [|reflexivity].
          by rewrite advertised_app, advertised_return_adverts,
            advertised_pcl_warning. }
      replace (advertised LaserScanT
                 (if check_token (tokens_of pnh) "IMG" then _ else []))
        with (@nil string).
      2:{ destruct (check_token _ "IMG"); [|reflexivity].
          by rewrite advertised_image_adverts. }
      cbn. by rewrite !app_nil_r. }
    split.
    { eexists. split.
      - unfold configured. cbn [lidar_packet_handler]. rewrite Hscan.
        rewrite orb_true_r. reflexivity.
      - unfold lidar_handler_for, processors_for. cbn [lidar_scan_handlers].
        rewrite Hscan. destruct (check_token _ "PCL"); cbn.
        + right. left.
        + left. }
    split.
    { unfold scan_processor. rewrite process_laser_scan by exact Hpubs.
      by rewrite Hpass. }
    intros wrap. by apply length_return_delivery.
Qed.

(** ** Processor selection *)

Lemma check_token_parse_tokens (mask : string) (delim : Ascii.ascii)
    (token : string) :
  check_token (parse_tokens mask delim) token = true
  <-> token ∈ recognized_tokens /\ token ∈ split_on delim mask.
Proof.
  unfold check_token, parse_tokens.
  rewrite bool_decide_eq_true, elem_of_list_to_set, list_elem_of_filter.
  reflexivity.
Qed.

Lemma return_delivery_point_clouds base (g : nat -> PointCloud2) (n : Z) :
  Forall (fun e => is_scan_or_image_publish e = false)
    (return_delivery PointCloud2T base (fun r => PointCloud2Msg (g r)) n).
Proof.
  unfold return_delivery.
  induction (seq 0 (Z.to_nat n)) as [|i l IH]; constructor; done.
Qed.

Lemma deliver_imu_and_point_cloud_only p scans images (pkt : Delivery) d :
  imu_and_point_cloud_only p scans images d ->
  exists d' log,
    deliver pkt d = Some (tt, d', log)
    /\ Forall (fun e => is_scan_or_image_publish e = false) log
    /\ imu_and_point_cloud_only p scans images d'.
Proof.
  intros (Himu & (hl & Hhl & Hprocs) & Hpcl & Hscans & Himages).
  destruct pkt as [buf|buf]; cbn [deliver].
  - destruct Hpcl as (point_type & inf & frame & apply & minv & -> & Hpubs).
    unfold on_lidar_packet_msg.
    erewrite bind_run; last reflexivity. rewrite Hhl.
    unfold lidar_handler_call. rewrite Hprocs.
    erewrite bind_run; last reflexivity.
    destruct (lidar_packet_accumulator (lidar_scan_state hl) buf)
      as [next [scan|]]; cbn [fst snd].
    + cbn [for_each].
      erewrite bind_run; last by apply process_point_cloud.
      cbn. eexists _, _. split; [reflexivity|]. split.
      * rewrite app_nil_r.
        destruct (valid_column_count scan <? minv);
          [by repeat constructor | apply return_delivery_point_clouds].
      * repeat split; eauto 10.
    + cbn. eexists _, _. split; [reflexivity|].
      split; [constructor|]. repeat split; eauto 10.
  - destruct Himu as [hi Hhi].
    rewrite (on_imu_packet_msg_run buf d hi Hhi).
    eexists _, _. split; [reflexivity|].
    split; [by repeat constructor|].
    repeat split; eauto 10.
Qed.

Lemma deliver_all_imu_and_point_cloud_only p scans images
    (packets : list Delivery) :
  forall d,
    imu_and_point_cloud_only p scans images d ->
    exists d' log,
      deliver_all packets d = Some (tt, d', log)
      /\ Forall (fun e => is_scan_or_image_publish e = false) log
      /\ imu_and_point_cloud_only p scans images d'.
Proof.
  unfold deliver_all.
  induction packets as [|pkt packets IH]; intros d Hinv.
  - exists d, []. repeat split; [constructor | apply Hinv ..].
  - destruct (deliver_imu_and_point_cloud_only p scans images pkt d Hinv)
      as (d1 & log1 & Hrun1 & Hlog1 & Hinv1).
    destruct (IH d1 Hinv1) as (d2 & log2 & Hrun2 & Hlog2 & Hinv2).
    exists d2, (log1 ++ log2). split.
    + cbn [for_each]. erewrite bind_run; last exact Hrun1.
      by rewrite Hrun2.
    + split; [by apply Forall_app|exact Hinv2].
Qed.

(** C2. A token is enabled exactly when it is one of IMU, PCL, SCAN, IMG
    and is one of the pieces of the mask cut at the delimiter; other
    pieces change nothing.  With the mask "IMU|PCL", [create_publishers]
    builds the IMU packet handler and a lidar packet handler whose only
    processor is the point cloud processor: no laser scan or image topic
    is advertised, [scan_pubs] and [image_pubs] are left alone, and
    whatever packets are then delivered, every one is handled, no laser
    scan or image is ever published and the processor list stays the
    same. *)
Theorem mask_imu_pcl_selects_imu_and_point_cloud (pnh : Params)
    (offset_ns : Z) d :
  p_proc_mask pnh = Some "IMU|PCL"%string ->
  offset_to_ns (offset_of pnh) = Some offset_ns ->
  0 <= get_n_returns (info d) ->
  (forall mask token,
     check_token (parse_tokens mask "|"%char) token = true
     <-> token ∈ recognized_tokens /\ token ∈ split_on "|"%char mask)
  /\ exists d' log hi hl,
       create_publishers pnh d = Some (tt, d', log)
       /\ imu_packet_handler d' = Some hi
       /\ lidar_packet_handler d' = Some hl
       /\ lidar_scan_handlers hl = [pcl_processor pnh d]
       /\ advertised LaserScanT log = []
       /\ advertised ImageT log = []
       /\ scan_pubs d' = scan_pubs d
       /\ image_pubs d' = image_pubs d
       /\ forall packets,
            exists d'' log',
              deliver_all packets d' = Some (tt, d'', log')
              /\ Forall (fun e => is_scan_or_image_publish e = false) log'
              /\ (exists hl', lidar_packet_handler d'' = Some hl'
                              /\ lidar_scan_handlers hl'
                                 = [pcl_processor pnh d])
              /\ scan_pubs d'' = scan_pubs d
              /\ image_pubs d'' = image_pubs d.
Proof.
  intros Hmask Hns Hn.
  split; [intros mask token; apply check_token_parse_tokens|].
  assert (Htokens : tokens_of pnh = parse_tokens "IMU|PCL" "|"%char).
  { unfold tokens_of. rewrite Hmask. reflexivity. }
  assert (Himu : check_token (tokens_of pnh) "IMU" = true)
    by (rewrite Htokens; reflexivity).
  assert (Hpcl : check_token (tokens_of pnh) "PCL" = true)
    by (rewrite Htokens; reflexivity).
  assert (Hscan : check_token (tokens_of pnh) "SCAN" = false)
    by (rewrite Htokens; reflexivity).
  assert (Himg : check_token (tokens_of pnh) "IMG" = false)
    by (rewrite Htokens; reflexivity).
  exists (configured pnh offset_ns d), (configuration_log pnh d),
    (imu_handler_for pnh offset_ns d), (lidar_handler_for pnh offset_ns d).
  split.
  { apply create_publishers_run; [exact Hns | intros _; exact Hn |].
    rewrite Hscan. discriminate. }
  assert (Hprocs : processors_for pnh d = [pcl_processor pnh d]).
  { unfold processors_for. by rewrite Hpcl, Hscan, Himg. }
  unfold configured, lidar_handler_for.
  cbn [imu_packet_handler lidar_packet_handler lidar_scan_handlers
       scan_pubs image_pubs].
  rewrite Himu, Hpcl, Hscan, Himg, Hprocs. cbn [orb].
  do 3 (split; [reflexivity|]).
  split.
  { unfold configuration_log. rewrite Himu, Hpcl, Hscan, Himg.
    by rewrite !advertised_app, advertised_return_adverts,
      advertised_pcl_warning. }
  split.
  { unfold configuration_log. rewrite Himu, Hpcl, Hscan, Himg.
    by rewrite !advertised_app, advertised_return_adverts,
      advertised_pcl_warning. }
  do 2 (split; [reflexivity|]).
  intros packets.
  edestruct (deliver_all_imu_and_point_cloud_only (pcl_processor pnh d)
               (scan_pubs d) (image_pubs d) packets)
    as (d2 & log2 & Hrun & Hlog & Hinv); last first.
  { exists d2, log2. split; [exact Hrun|]. split; [exact Hlog|].
    destruct Hinv as (_ & Hhl & _ & Hscans & Himages). by repeat split. }
  repeat split; cbn; eauto 10.
Qed.

(** ** When [create_publishers] faults *)

Lemma bind_assoc {A B C} (c : M A) (f : A -> M B) (k : B -> M C) d :
  bind (bind c f) k d = bind c (fun a => bind (f a) k) d.
Proof.
  unfold bind. destruct (c d) as [[[a d1] log1]|]; [|reflexivity].
  destruct (f a d1) as [[[b d2] log2]|]; [|reflexivity].
  destruct (k b d2) as [[[r d3] log3]|]; [|reflexivity].
  by rewrite app_assoc.
Qed.

Lemma create_imu_fault (mode : string) (offset : float) d :
  offset_to_ns offset = None -> create_imu mode offset d = None.
Proof. intros Hnone. unfold create_imu. run_prim. by rewrite Hnone. Qed.

Lemma create_pcl_fault (pnh : Params) (num_returns minv : Z) d :
  num_returns < 0 -> create_pcl pnh num_returns minv d = None.
Proof.
  intros Hn. unfold create_pcl. apply bind_fault.
  by apply advertise_returns_negative.
Qed.

Lemma create_scan_fault_returns (pnh : Params) (num_returns minv : Z) d :
  num_returns < 0 -> create_scan pnh num_returns minv d = None.
Proof.
  intros Hn. unfold create_scan. apply bind_fault.
  by apply advertise_returns_negative.
Qed.

Lemma create_scan_fault_beams (pnh : Params) (num_returns minv : Z) d :
  0 <= num_returns -> beams_count_of d = INT_MIN ->
  create_scan pnh num_returns minv d = None.
Proof.
  intros Hn Hbeams. unfold create_scan.
  erewrite bind_run; last first.
  { apply advertise_returns_run; [reflexivity | reflexivity | exact Hn]. }
  unfold beams_count_of in Hbeams. run_prim. cbn [info set_scan_pubs].
  rewrite Hbeams. reflexivity.
Qed.

(** Evaluates [create_publishers] step by step once its tokens and the facts
    that decide each step are in the context. *)
Ltac known_fact :=
  match goal with
  | H : 0 <= get_n_returns _ |- 0 <= _ => exact H
  | H : get_n_returns _ < 0 |- _ < 0 => exact H
  | H : beams_count_of _ <> INT_MIN |- _ <> INT_MIN => exact H
  | H : beams_count_of _ = INT_MIN |- _ = INT_MIN => exact H
  | H : offset_to_ns _ = _ |- offset_to_ns _ = _ => exact H
  end.

Ltac step_known :=
  first
    [ rewrite bind_assoc
    | rewrite bind_fault by
        first [ apply create_imu_fault; known_fact
              | apply create_pcl_fault; known_fact
              | apply create_scan_fault_returns; known_fact
              | apply create_scan_fault_beams; known_fact
              | match goal with
                | H : offset_to_ns _ = None |- _ => rewrite H; reflexivity
                end ]
    | erewrite bind_run by
        first [ eapply create_imu_run; known_fact
              | apply create_pcl_run; known_fact
              | apply create_scan_run; known_fact
              | apply create_img_run
              | match goal with
                | H : offset_to_ns _ = Some _ |- _ => rewrite H; reflexivity
                end
              | reflexivity ] ];
  cbv beta.

(** A run that returns has met every condition of [runnable]. *)
Lemma create_publishers_returns_runnable (pnh : Params) d r :
  create_publishers pnh d = Some r -> runnable pnh d.
Proof.
  unfold create_publishers, runnable.
  fold (offset_of pnh) (threshold_of pnh) (tokens_of pnh).
  destruct (offset_to_ns (offset_of pnh)) as [ns|] eqn:Hns;
    destruct (Z_lt_le_dec (get_n_returns (info d)) 0) as [Hneg|Hn];
    destruct (decide (beams_count_of d = INT_MIN)) as [Hb|Hb];
    destruct (check_token (tokens_of pnh) "IMU");
    destruct (check_token (tokens_of pnh) "PCL");
    destruct (check_token (tokens_of pnh) "SCAN");
    destruct (check_token (tokens_of pnh) "IMG");
    cbn [when orb app];
    first
      [ by (intros _; repeat split; intros; try discriminate; eauto)
      | repeat step_known; discriminate ].
Qed.

Lemma configured_nothing_enabled (pnh : Params) (offset_ns : Z) d :
  check_token (tokens_of pnh) "IMU" = false ->
  check_token (tokens_of pnh) "PCL" = false ->
  check_token (tokens_of pnh) "SCAN" = false ->
  check_token (tokens_of pnh) "IMG" = false ->
  configured pnh offset_ns d = d /\ configuration_log pnh d = [].
Proof.
  intros Himu Hpcl Hscan Himg.
  unfold configured, configuration_log.
  rewrite Himu, Hpcl, Hscan, Himg. by destruct d.
Qed.

Lemma create_publishers_nothing_enabled (pnh : Params) d :
  check_token (tokens_of pnh) "IMU" = false ->
  check_token (tokens_of pnh) "PCL" = false ->
  check_token (tokens_of pnh) "SCAN" = false ->
  check_token (tokens_of pnh) "IMG" = false ->
  create_publishers pnh d = Some (tt, d, []).
Proof.
  intros Himu Hpcl Hscan Himg. unfold create_publishers.
  fold (offset_of pnh) (threshold_of pnh) (tokens_of pnh).
  rewrite Himu, Hpcl, Hscan, Himg. reflexivity.
Qed.

(** Whenever [create_publishers] returns, it has left the driver
    [configured] and logged [configuration_log]. *)
Lemma create_publishers_returns (pnh : Params) d d' log :
  create_publishers pnh d = Some (tt, d', log) ->
  d' = configured pnh (offset_ns_of pnh) d /\ log = configuration_log pnh d.
Proof.
  intros Hrun.
  destruct (create_publishers_returns_runnable pnh d _ Hrun)
    as (Hoffset & Hn & Hbeams).
  unfold offset_ns_of.
  destruct (offset_to_ns (offset_of pnh)) as [ns|] eqn:Hns.
  - rewrite (create_publishers_run pnh ns d Hns Hn Hbeams) in Hrun.
    by injection Hrun as <- <-.
  - destruct (check_token (tokens_of pnh) "IMU") eqn:Himu;
      [by destruct Hoffset|].
    destruct (check_token (tokens_of pnh) "PCL") eqn:Hpcl;
      [by destruct Hoffset|].
    destruct (check_token (tokens_of pnh) "SCAN") eqn:Hscan;
      [by destruct Hoffset|].
    destruct (check_token (tokens_of pnh) "IMG") eqn:Himg;
      [by destruct Hoffset|].
    rewrite (create_publishers_nothing_enabled pnh d Himu Hpcl Hscan Himg)
      in Hrun.
    injection Hrun as <- <-.
    destruct (configured_nothing_enabled pnh (default 0 None) d
                Himu Hpcl Hscan Himg) as [-> ->].
    done.
Qed.

Lemma runnable_runs (pnh : Params) d :
  runnable pnh d ->
  create_publishers pnh d
  = Some (tt, configured pnh (offset_ns_of pnh) d, configuration_log pnh d).
Proof.
  intros (Hoffset & Hn & Hbeams). unfold offset_ns_of.
  destruct (offset_to_ns (offset_of pnh)) as [ns|] eqn:Hns.
  - by apply create_publishers_run.
  - destruct (check_token (tokens_of pnh) "IMU") eqn:Himu;
      [by destruct Hoffset|].
    destruct (check_token (tokens_of pnh) "PCL") eqn:Hpcl;
      [by destruct Hoffset|].
    destruct (check_token (tokens_of pnh) "SCAN") eqn:Hscan;
      [by destruct Hoffset|].
    destruct (check_token (tokens_of pnh) "IMG") eqn:Himg;
      [by destruct Hoffset|].
    destruct (configured_nothing_enabled pnh (default 0 None) d
                Himu Hpcl Hscan Himg) as [-> ->].
    by apply create_publishers_nothing_enabled.
Qed.

(** X1. [create_publishers] returns exactly when every step it takes is
    defined: the offset converts to a 64-bit integer if any processor is
    enabled, the return count is not negative if PCL or SCAN is enabled, and
    the beam count is not the least [int] if SCAN is enabled.  Otherwise the
    call ends in undefined behaviour or an exception. *)
Theorem create_publishers_returns_iff_defined (pnh : Params) d :
  is_Some (create_publishers pnh d)
  <-> (check_token (tokens_of pnh) "IMU" || check_token (tokens_of pnh) "PCL"
         || check_token (tokens_of pnh) "SCAN"
         || check_token (tokens_of pnh) "IMG" = true ->
       is_Some (offset_to_ns (offset_of pnh)))
      /\ (check_token (tokens_of pnh) "PCL"
            || check_token (tokens_of pnh) "SCAN" = true ->
          0 <= get_n_returns (info d))
      /\ (check_token (tokens_of pnh) "SCAN" = true ->
          beams_count_of d <> INT_MIN).
Proof.
  change (is_Some (create_publishers pnh d) <-> runnable pnh d).
  split.
  - intros [r Hrun]. by eapply create_publishers_returns_runnable.
  - intros Hrunnable. rewrite (runnable_runs pnh d Hrunnable). by eexists.
Qed.

(** ** What a configuration leaves alone *)

Lemma publishes_app (l1 l2 : list Event) :
  publishes (l1 ++ l2) = publishes l1 ++ publishes l2.
Proof. unfold publishes. by rewrite omap_app. Qed.

Lemma warnings_app (l1 l2 : list Event) :
  warnings (l1 ++ l2) = warnings l1 ++ warnings l2.
Proof. unfold warnings. by rewrite omap_app. Qed.

Lemma return_adverts_quiet ty base n :
  publishes (return_adverts ty base n) = []
  /\ warnings (return_adverts ty base n) = [].
Proof.
  unfold return_adverts.
  induction (seq 0 (Z.to_nat n)) as [|i l [IHp IHw]]; split; done.
Qed.

Lemma image_adverts_quiet topics :
  publishes (image_adverts topics) = [] /\ warnings (image_adverts topics) = [].
Proof. induction topics as [|it l [IHp IHw]]; split; done. Qed.

Lemma configuration_log_publishes (pnh : Params) d :
  publishes (configuration_log pnh d) = [].
Proof.
  unfold configuration_log, pcl_warning, scan_warning.
  rewrite !publishes_app.
  destruct (check_token _ "IMU"), (check_token _ "PCL"),
    (check_token _ "SCAN"), (check_token _ "IMG");
    rewrite ?publishes_app, ?(proj1 (return_adverts_quiet _ _ _)),
      ?(proj1 (image_adverts_quiet _));
    repeat match goal with |- context [if ?b then _ else _] => destruct b end;
    reflexivity.
Qed.

(** X2. A token that is not in the mask leaves its members as they were:
    without IMU, [imu_pub] and the IMU packet handler; without PCL, SCAN or
    IMG, the matching publishers; without all three, the lidar packet
    handler, so a handler built by an earlier configuration stays in place.
    With no token at all the driver is returned as it was and nothing is
    logged. *)
Theorem disabled_tokens_leave_members_untouched (pnh : Params) d d' log :
  create_publishers pnh d = Some (tt, d', log) ->
  (check_token (tokens_of pnh) "IMU" = false ->
     imu_pub d' = imu_pub d /\ imu_packet_handler d' = imu_packet_handler d)
  /\ (check_token (tokens_of pnh) "PCL" = false -> lidar_pubs d' = lidar_pubs d)
  /\ (check_token (tokens_of pnh) "SCAN" = false -> scan_pubs d' = scan_pubs d)
  /\ (check_token (tokens_of pnh) "IMG" = false -> image_pubs d' = image_pubs d)
  /\ (check_token (tokens_of pnh) "PCL" || check_token (tokens_of pnh) "SCAN"
        || check_token (tokens_of pnh) "IMG" = false ->
      lidar_packet_handler d' = lidar_packet_handler d)
  /\ (check_token (tokens_of pnh) "IMU" || check_token (tokens_of pnh) "PCL"
        || check_token (tokens_of pnh) "SCAN"
        || check_token (tokens_of pnh) "IMG" = false ->
      d' = d /\ log = []).
Proof.
  intros Hrun.
  destruct (create_publishers_returns pnh d d' log Hrun) as [-> ->].
  split; [intros Himu; unfold configured; cbn; by rewrite Himu|].
  split; [intros Hpcl; unfold configured; cbn; by rewrite Hpcl|].
  split; [intros Hscan; unfold configured; cbn; by rewrite Hscan|].
  split; [intros Himg; unfold configured; cbn; by rewrite Himg|].
  split; [intros Hnone; unfold configured; cbn; by rewrite Hnone|].
  intros Hnone. apply orb_false_elim in Hnone as [Hnone Himg].
  apply orb_false_elim in Hnone as [Hnone Hscan].
  apply orb_false_elim in Hnone as [Himu Hpcl].
  apply (configured_nothing_enabled pnh (offset_ns_of pnh) d
           Himu Hpcl Hscan Himg).
Qed.

(** X3. Configuration only advertises and warns: whatever the parameters,
    [create_publishers] makes no publish call, and it leaves the sensor
    metadata and the transforms broadcaster as they were. *)
Theorem create_publishers_never_publishes (pnh : Params) d d' log :
  create_publishers pnh d = Some (tt, d', log) ->
  publishes log = [] /\ info d' = info d /\ tf_bcast d' = tf_bcast d.
Proof.
  intros Hrun.
  destruct (create_publishers_returns pnh d d' log Hrun) as [-> ->].
  split; [apply configuration_log_publishes|]. split; reflexivity.
Qed.

Lemma image_pubs_for_keeps (topics : list (ChanField * string)) :
  forall pubs f,
    is_Some (pubs !! f) -> is_Some (image_pubs_for topics pubs !! f).
Proof.
  induction topics as [|it topics IH]; intros pubs f Hsome; [exact Hsome|].
  change (image_pubs_for (it :: topics) pubs)
    with (image_pubs_for topics
            (<[fst it := Advertised ImageT (snd it) 10]> pubs)).
  apply IH. rewrite lookup_insert. destruct (decide (fst it = f)); [|done].
  by eexists.
Qed.

(** X4. No configuration ever removes an image publisher: a channel field
    that had a publisher before [create_publishers] still has one after it,
    the one it had unless IMG is enabled and the selected topic map names
    the field.  Publishers advertised for a dual-return sensor thus outlive
    a reconfiguration for a single return. *)
Theorem image_publishers_are_never_removed (pnh : Params) d d' log
    (f : ChanField) (p : Publisher) :
  create_publishers pnh d = Some (tt, d', log) ->
  image_pubs d !! f = Some p ->
  is_Some (image_pubs d' !! f)
  /\ (check_token (tokens_of pnh) "IMG" = false
      \/ f ∉ map fst (which_map (get_n_returns (info d))) ->
      image_pubs d' !! f = Some p).
Proof.
  intros Hrun Hp.
  destruct (create_publishers_returns pnh d d' log Hrun) as [-> _].
  unfold configured. cbn [image_pubs].
  destruct (check_token (tokens_of pnh) "IMG").
  - split; [apply image_pubs_for_keeps; by eexists|].
    intros [Himg|Hf]; [discriminate|].
    by rewrite image_pubs_for_other.
  - split; [by eexists|done].
Qed.

(** ** The warnings of a configuration *)

(** X5. A configuration logs at most two warnings, in this order: the
    profile warning, exactly when PCL is enabled, the point type requires
    intensity and the lidar profile is RNG15_RFL8_NIR8; and the scan ring
    warning, exactly when SCAN is enabled and the ring was clamped.  The
    profile warning does not stop the point cloud processor from being
    built. *)
Theorem configuration_warnings (pnh : Params) d d' log :
  create_publishers pnh d = Some (tt, d', log) ->
  warnings log
  = (if check_token (tokens_of pnh) "PCL"
        && point_type_requires_intensity (param (p_point_type pnh) "original")
        && bool_decide (udp_profile_lidar (info d) = PROFILE_RNG15_RFL8_NIR8)
     then [ProfileIncompatible (param (p_point_type pnh) "original")]
     else [])
    ++ (if check_token (tokens_of pnh) "SCAN"
           && negb (scan_ring_of pnh d =? param (p_scan_ring pnh) 0)
        then [ScanRingClamped (beams_count_of d) (scan_ring_of pnh d)]
        else [])
  /\ (check_token (tokens_of pnh) "PCL" = true ->
      exists h, lidar_packet_handler d' = Some h
                /\ pcl_processor pnh d ∈ lidar_scan_handlers h).
Proof.
  intros Hrun.
  destruct (create_publishers_returns pnh d d' log Hrun) as [-> ->].
  split.
  - unfold configuration_log, pcl_warning, scan_warning.
    rewrite !warnings_app.
    destruct (check_token _ "IMU"), (check_token _ "PCL"),
      (check_token _ "SCAN"), (check_token _ "IMG");
      rewrite ?warnings_app, ?(proj2 (return_adverts_quiet _ _ _)),
        ?(proj2 (image_adverts_quiet _));
      cbn [andb];
      repeat match goal with |- context [if ?b then _ else _] => destruct b end;
      reflexivity.
  - intros Hpcl. eexists. split.
    + unfold configured. cbn [lidar_packet_handler]. by rewrite Hpcl.
    + unfold lidar_handler_for, processors_for. cbn [lidar_scan_handlers].
      rewrite Hpcl. left.
Qed.

(** ** Configuring twice *)

Lemma image_pubs_for_idempotent (topics : list (ChanField * string)) pubs :
  NoDup (map fst topics) ->
  image_pubs_for topics (image_pubs_for topics pubs)
  = image_pubs_for topics pubs.
Proof.
  intros Hnodup. apply map_eq. intros f.
  destruct (decide (f ∈ map fst topics)) as [Hin|Hnotin].
  - apply list_elem_of_fmap in Hin as ([f' topic] & -> & Hin).
    by rewrite !(image_pubs_for_lookup topics _ f' topic Hnodup Hin).
  - by rewrite image_pubs_for_other.
Qed.

(** X6. Running [create_publishers] again on the driver it has just
    configured, with the same parameters, returns that driver unchanged and
    logs the same advertisements and warnings once more. *)
Theorem reconfiguration_is_idempotent (pnh : Params) d d' log :
  create_publishers pnh d = Some (tt, d', log) ->
  create_publishers pnh d' = Some (tt, d', log).
Proof.
  intros Hrun.
  pose proof (create_publishers_returns_runnable pnh d _ Hrun) as Hrunnable.
  destruct (create_publishers_returns pnh d d' log Hrun) as [-> ->].
  rewrite runnable_runs by exact Hrunnable.
  change (configuration_log pnh (configured pnh (offset_ns_of pnh) d))
    with (configuration_log pnh d).
  replace (configured pnh (offset_ns_of pnh)
             (configured pnh (offset_ns_of pnh) d))
    with (configured pnh (offset_ns_of pnh) d); [reflexivity|].
  unfold configured, imu_handler_for, lidar_handler_for, processors_for,
    pcl_processor, scan_processor, img_processor, scan_ring_of, beams_count_of.
  destruct (check_token (tokens_of pnh) "IMU"),
    (check_token (tokens_of pnh) "PCL"), (check_token (tokens_of pnh) "SCAN"),
    (check_token (tokens_of pnh) "IMG");
    cbn [info tf_bcast imu_pub lidar_pubs scan_pubs image_pubs
         imu_packet_handler lidar_packet_handler orb];
    rewrite ?image_pubs_for_idempotent by apply which_map_keys_NoDup;
    reflexivity.
Qed.

(** ** More on the image topics *)

Lemma image_topic_elem (topics : list (ChanField * string)) f topic :
  image_topic topics f = Some topic -> (f, topic) ∈ topics.
Proof.
  induction topics as [|[f' topic'] topics IH]; [discriminate|].
  cbn [image_topic fst snd]. destruct (decide (f' = f)) as [->|Hne].
  - intros [= ->]. left.
  - intros Hfound. right. by apply IH.
Qed.

(** X9. The two topic maps agree on the four single-return fields: an entry
    of the single-return map is an entry of the map selected for any return
    count, so a change of return count never renames the topic of RANGE,
    SIGNAL, REFLECTIVITY or NEAR_IR.  Within a selected map no two fields
    share a topic. *)
Theorem topic_maps_are_consistent (num_returns : Z) :
  (forall f topic,
     (f, topic) ∈ channel_field_topic_map_1 ->
     (f, topic) ∈ which_map num_returns)
  /\ NoDup (map snd (which_map num_returns))
  /\ NoDup (map fst (which_map num_returns)).
Proof.
  split; [|split].
  - intros f topic Hin. unfold which_map.
    destruct (num_returns =? 1); [exact Hin|].
    unfold channel_field_topic_map_1 in Hin.
    unfold channel_field_topic_map_2.
    rewrite !elem_of_cons, elem_of_nil in Hin.
    rewrite !elem_of_cons.
    decompose [or] Hin; try contradiction;
      match goal with H : (f, topic) = _ |- _ => rewrite H end; auto 10.
  - unfold which_map. destruct (num_returns =? 1); compute_done.
  - apply which_map_keys_NoDup.
Qed.

(** X10. Publishers stored by a configuration are the ones the image
    callback finds: after [create_publishers] with IMG enabled, a frame that
    passes the filter and carries only fields of the selected topic map is
    published, image by image, on the topic the map gives its field, and the
    driver is left as configured. *)
Theorem image_frames_reach_their_topics (pnh : Params) d d' log
    (data : OutputType (list (ChanField * Image))) :
  create_publishers pnh d = Some (tt, d', log) ->
  check_token (tokens_of pnh) "IMG" = true ->
  threshold_of pnh <= num_valid_columns data ->
  (forall it, it ∈ msgs data ->
     is_Some (image_topic (which_map (get_n_returns (info d))) (fst it))) ->
  image_callback (threshold_of pnh) data d'
  = Some (tt, d',
          map (fun it =>
                 Publish
                   (Advertised ImageT
                      (default ""%string
                         (image_topic (which_map (get_n_returns (info d)))
                            (fst it))) 10)
                   (ImageMsg (snd it))) (msgs data)).
Proof.
  intros Hrun Himg Hvalid Hfields.
  destruct (create_publishers_returns pnh d d' log Hrun) as [-> _].
  assert (Hpubs : forall it, it ∈ msgs data ->
            image_pubs (configured pnh (offset_ns_of pnh) d) !! fst it
            = Some (Advertised ImageT
                      (default ""%string
                         (image_topic (which_map (get_n_returns (info d)))
                            (fst it))) 10)).
  { intros it Hin. destruct (Hfields it Hin) as [topic Htopic].
    rewrite Htopic. cbn [default from_option id].
    unfold configured. cbn [image_pubs]. rewrite Himg.
    apply image_pubs_for_lookup; [apply which_map_keys_NoDup|].
    by apply image_topic_elem. }
  rewrite image_forwarded; [|exact Hvalid|].
  - f_equal. f_equal. unfold image_delivery.
    apply map_ext_in. intros it Hin.
    apply list_elem_of_In in Hin. by rewrite (Hpubs it Hin).
  - intros it Hin. rewrite (Hpubs it Hin). by eexists.
Qed.

(** ** Configuring a new driver *)

(** X11. On a newly constructed driver the mask decides which packets are
    handled: after [create_publishers] the IMU packet handler exists
    exactly when IMU is enabled and the lidar packet handler exactly when
    PCL, SCAN or IMG is; packets of a kind whose tokens are all absent are
    dropped without effect. *)
Theorem new_driver_handles_enabled_kinds (pnh : Params) (inf : sensor_info)
    (tf : OusterTransformsBroadcaster) d' log :
  create_publishers pnh (new_driver inf tf) = Some (tt, d', log) ->
  (is_Some (imu_packet_handler d')
   <-> check_token (tokens_of pnh) "IMU" = true)
  /\ (is_Some (lidar_packet_handler d')
      <-> check_token (tokens_of pnh) "PCL"
          || check_token (tokens_of pnh) "SCAN"
          || check_token (tokens_of pnh) "IMG" = true)
  /\ (check_token (tokens_of pnh) "IMU" = false ->
      forall pkt, on_imu_packet_msg pkt d' = Some (tt, d', []))
  /\ (check_token (tokens_of pnh) "PCL" || check_token (tokens_of pnh) "SCAN"
        || check_token (tokens_of pnh) "IMG" = false ->
      forall pkt, on_lidar_packet_msg pkt d' = Some (tt, d', [])).
Proof.
  intros Hrun.
  destruct (create_publishers_returns pnh _ d' log Hrun) as [-> _].
  assert (Himu : imu_packet_handler
                   (configured pnh (offset_ns_of pnh) (new_driver inf tf))
                 = if check_token (tokens_of pnh) "IMU"
                   then Some (imu_handler_for pnh (offset_ns_of pnh)
                                (new_driver inf tf))
                   else None) by reflexivity.
  assert (Hlidar : lidar_packet_handler
                     (configured pnh (offset_ns_of pnh) (new_driver inf tf))
                   = if check_token (tokens_of pnh) "PCL"
                        || check_token (tokens_of pnh) "SCAN"
                        || check_token (tokens_of pnh) "IMG"
                     then Some (lidar_handler_for pnh (offset_ns_of pnh)
                                  (new_driver inf tf))
                     else None) by reflexivity.
  split; [|split; [|split]].
  - rewrite Himu. destruct (check_token _ "IMU").
    + split; [done | by eexists].
    + split; [by intros [? ?] | done].
  - rewrite Hlidar. destruct (_ || _ || _).
    + split; [done | by eexists].
    + split; [by intros [? ?] | done].
  - intros Hoff pkt. apply on_imu_packet_msg_idle. by rewrite Himu, Hoff.
  - intros Hoff pkt. apply on_lidar_packet_msg_idle. by rewrite Hlidar, Hoff.
Qed.

(** ** Frames that do not fit the publishers *)

(** X12. The point cloud and laser scan callbacks index their publisher
    vector without a bounds check: a frame that passes the filter with more
    sub-payloads than there are publishers runs past the end of the vector.
    The filter comes first, so a frame below the threshold is dropped
    whatever it carries, even with no publisher at all. *)
Theorem oversized_frames_overrun_the_publishers (threshold : Z) d
    (cloud : OutputType (list PointCloud2))
    (scan : OutputType (list LaserScan)) :
  (length (lidar_pubs d) < length (pc_msgs cloud))%nat ->
  (length (scan_pubs d) < length (scan_msgs scan))%nat ->
  (threshold <= num_valid_columns cloud ->
     point_cloud_callback threshold cloud d = None)
  /\ (threshold <= num_valid_columns scan ->
        laser_scan_callback threshold scan d = None)
  /\ (num_valid_columns cloud < threshold ->
        point_cloud_callback threshold cloud d
        = Some (tt, d, [Warn (IncompleteCloud (num_valid_columns cloud)
                                threshold)]))
  /\ (num_valid_columns scan < threshold ->
        laser_scan_callback threshold scan d = Some (tt, d, [])).
Proof.
  intros Hcloud Hscan.
  split; [|split; [|split]].
  - intros Hge. unfold point_cloud_callback.
    destruct (num_valid_columns cloud <? threshold) eqn:Hcmp; [lia|].
    by apply publish_by_index_out_of_range.
  - intros Hge. unfold laser_scan_callback.
    destruct (num_valid_columns scan <? threshold) eqn:Hcmp; [lia|].
    by apply publish_by_index_out_of_range.
  - apply point_cloud_dropped.
  - apply laser_scan_dropped.
Qed.

Lemma image_delivery_default (images : list (ChanField * Image))
    (pubs : gmap ChanField Publisher) (f : ChanField) :
  pubs !! f = None ->
  image_delivery (<[f := InvalidPublisher]> pubs) images
  = image_delivery pubs images.
Proof.
  intros Hnone. unfold image_delivery. apply map_ext. intros it.
  rewrite lookup_insert. destruct (decide (f = fst it)) as [->|Hne].
  - by rewrite Hnone.
  - reflexivity.
Qed.

(** The image loop on any frame: it never faults. *)
Lemma image_loop_total (images : list (ChanField * Image)) :
  forall pubs d,
    for_each images (fun it =>
      let* pub := image_pubs_at (fst it) in
      publish pub (ImageMsg (snd it))) (set_image_pubs pubs d)
    = Some (tt, set_image_pubs (with_default_publishers images pubs) d,
            image_delivery pubs images).
Proof.
  induction images as [|it images IH]; intros pubs d; [reflexivity|].
  cbn [for_each with_default_publishers foldl].
  destruct (pubs !! fst it) as [p|] eqn:Hp.
  - erewrite bind_run; last first.
    { run_prim. cbn [image_pubs set_image_pubs]. rewrite Hp. reflexivity. }
    fold (with_default_publishers images pubs).
    rewrite IH. unfold image_delivery. cbn [map]. by rewrite Hp.
  - erewrite bind_run; last first.
    { run_prim. cbn [image_pubs set_image_pubs]. rewrite Hp. reflexivity. }
    fold (with_default_publishers images (<[fst it := InvalidPublisher]> pubs)).
    match goal with
    | |- context [for_each images _ ?st] =>
        change st with
          (set_image_pubs (<[fst it := InvalidPublisher]> pubs) d)
    end.
    rewrite IH, image_delivery_default by exact Hp.
    unfold image_delivery. cbn [map]. by rewrite Hp.
Qed.

Lemma with_default_publishers_lookup (images : list (ChanField * Image)) :
  forall pubs f,
    with_default_publishers images pubs !! f
    = match pubs !! f with
      | Some p => Some p
      | None => if decide (f ∈ map fst images) then Some InvalidPublisher
                else None
      end.
Proof.
  induction images as [|it images IH]; intros pubs f.
  - cbn. destruct (pubs !! f); [reflexivity|].
    destruct (decide (f ∈ [])) as [Hin|_]; [|reflexivity].
    by apply elem_of_nil in Hin.
  - cbn [with_default_publishers foldl].
    fold (with_default_publishers images
            (match pubs !! fst it with
             | Some _ => pubs
             | None => <[fst it := InvalidPublisher]> pubs
             end)).
    rewrite IH. cbn [map].
    destruct (pubs !! fst it) as [p|] eqn:Hp.
    + destruct (pubs !! f) as [q|] eqn:Hq; [reflexivity|].
      assert (Hne : fst it <> f) by congruence.
      destruct (decide (f ∈ map fst images)) as [Hin|Hnotin];
        destruct (decide (f ∈ fst it :: map fst images)) as [Hin'|Hnotin'];
        try reflexivity.
      * exfalso. apply Hnotin'. by right.
      * exfalso. apply elem_of_cons in Hin' as [Heq|Hin']; [by subst|done].
    + rewrite lookup_insert. destruct (decide (fst it = f)) as [Heq|Hne].
      * subst f. rewrite Hp.
        destruct (decide (fst it ∈ fst it :: map fst images)) as [_|Hnotin];
          [reflexivity|].
        exfalso. apply Hnotin. left.
      * destruct (pubs !! f) as [q|] eqn:Hq; [reflexivity|].
        destruct (decide (f ∈ map fst images)) as [Hin|Hnotin];
          destruct (decide (f ∈ fst it :: map fst images)) as [Hin'|Hnotin'];
          try reflexivity.
        -- exfalso. apply Hnotin'. by right.
        -- exfalso. apply elem_of_cons in Hin' as [Heq|Hin']; [by subst|done].
Qed.

(** X13. The image callback never runs out of publishers: a frame that
    passes the filter is published image by image whatever fields it
    carries, and an image whose field has no publisher goes to a
    default-constructed one, which [operator[]] leaves behind in
    [image_pubs].  Afterwards the fields that had a publisher keep it, the
    missing fields of the frame hold an invalid publisher, and nothing else
    of the driver has changed. *)
Theorem image_callback_fills_missing_publishers (threshold : Z)
    (data : OutputType (list (ChanField * Image))) d :
  threshold <= num_valid_columns data ->
  image_callback threshold data d
  = Some (tt,
          set_image_pubs
            (with_default_publishers (image_msgs data) (image_pubs d)) d,
          image_delivery (image_pubs d) (image_msgs data))
  /\ forall f,
       with_default_publishers (image_msgs data) (image_pubs d) !! f
       = match image_pubs d !! f with
         | Some p => Some p
         | None => if decide (f ∈ map fst (image_msgs data))
                   then Some InvalidPublisher else None
         end.
Proof.
  intros Hvalid. split; [|apply with_default_publishers_lookup].
  unfold image_callback.
  destruct (num_valid_columns data <? threshold) eqn:Hcmp; [lia|].
  replace d with (set_image_pubs (image_pubs d) d) at 1
    by (by destruct d).
  apply image_loop_total.
Qed.

(** ** The two handlers of one configuration *)

(** X14. When a configuration builds both handlers, it builds them from the
    same values: the IMU packet handler and the lidar packet handler hold
    the same offset, the conversion of the [ptp_utc_tai_offset] parameter,
    the same timestamp mode and the same sensor metadata. *)
Theorem handlers_share_their_configuration (pnh : Params) d d' log :
  create_publishers pnh d = Some (tt, d', log) ->
  check_token (tokens_of pnh) "IMU" = true ->
  check_token (tokens_of pnh) "PCL" || check_token (tokens_of pnh) "SCAN"
    || check_token (tokens_of pnh) "IMG" = true ->
  exists hi hl,
    imu_packet_handler d' = Some hi
    /\ lidar_packet_handler d' = Some hl
    /\ offset_to_ns (offset_of pnh) = Some (imu_ptp_utc_tai_offset hi)
    /\ lidar_ptp_utc_tai_offset hl = imu_ptp_utc_tai_offset hi
    /\ lidar_timestamp_mode hl = imu_timestamp_mode hi
    /\ imu_timestamp_mode hi = param (p_timestamp_mode pnh) ""
    /\ lidar_info hl = imu_info hi
    /\ imu_info hi = info d.
Proof.
  intros Hrun Himu Hlidar.
  destruct (create_publishers_returns_runnable pnh d _ Hrun)
    as (Hoffset & _ & _).
  destruct (create_publishers_returns pnh d d' log Hrun) as [-> _].
  destruct Hoffset as [ns Hns].
  { rewrite Himu. reflexivity. }
  exists (imu_handler_for pnh (offset_ns_of pnh) d),
    (lidar_handler_for pnh (offset_ns_of pnh) d).
  split; [unfold configured; cbn [imu_packet_handler]; by rewrite Himu|].
  split; [unfold configured; cbn [lidar_packet_handler]; by rewrite Hlidar|].
  split; [|by repeat split].
  cbn [imu_handler_for imu_ptp_utc_tai_offset]. unfold offset_ns_of.
  by rewrite Hns.
Qed.

(** ** The default threshold *)

Lemma processors_for_threshold (pnh : Params) d p :
  p ∈ processors_for pnh d -> processor_threshold p = threshold_of pnh.
Proof.
  unfold processors_for, pcl_processor, scan_processor, img_processor.
  intros Hin.
  destruct (check_token _ "PCL"), (check_token _ "SCAN"),
    (check_token _ "IMG");
    simpl in Hin; rewrite ?elem_of_cons, ?elem_of_nil in Hin;
    decompose [or] Hin; try contradiction; subst p; reflexivity.
Qed.

Lemma processors_for_nonempty (pnh : Params) d :
  check_token (tokens_of pnh) "PCL" || check_token (tokens_of pnh) "SCAN"
    || check_token (tokens_of pnh) "IMG" = true ->
  processors_for pnh d <> [].
Proof.
  unfold processors_for.
  destruct (check_token _ "PCL"), (check_token _ "SCAN"),
    (check_token _ "IMG"); intros Hany; try discriminate; done.
Qed.

(** C3. With [min_valid_columns_in_scan] unset, [create_publishers] builds
    every processor of the lidar packet handler with the threshold 0, and
    the callback of each of them then forwards every frame (a count is never
    negative), whichever processor produced it.  The comparison is a strict
    less-than: on the configured driver a point cloud whose count equals the
    threshold is forwarded, and it is dropped as soon as the threshold
    exceeds its count by one. *)
Theorem default_threshold_forwards_every_frame (pnh : Params)
    (offset_ns : Z) d :
  p_min_valid_columns_in_scan pnh = None ->
  offset_to_ns (offset_of pnh) = Some offset_ns ->
  0 <= get_n_returns (info d) ->
  beams_count_of d <> INT_MIN ->
  exists d' log,
    create_publishers pnh d = Some (tt, d', log)
    /\ (check_token (tokens_of pnh) "PCL" || check_token (tokens_of pnh) "SCAN"
          || check_token (tokens_of pnh) "IMG" = true ->
        exists h,
          lidar_packet_handler d' = Some h
          /\ lidar_scan_handlers h <> []
          /\ forall p,
               p ∈ lidar_scan_handlers h ->
               processor_threshold p = 0
               /\ forall (cloud : OutputType (list PointCloud2))
                         (scan : OutputType (list LaserScan))
                         (image : OutputType (list (ChanField * Image))),
                    0 <= num_valid_columns cloud ->
                    0 <= num_valid_columns scan ->
                    0 <= num_valid_columns image ->
                    (length (msgs cloud) <= length (lidar_pubs d'))%nat ->
                    (length (msgs scan) <= length (scan_pubs d'))%nat ->
                    (forall it, it ∈ msgs image ->
                                is_Some (image_pubs d' !! fst it)) ->
                    point_cloud_callback (processor_threshold p) cloud d'
                    = Some (tt, d',
                            delivery (lidar_pubs d') PointCloud2Msg
                              (msgs cloud))
                    /\ laser_scan_callback (processor_threshold p) scan d'
                       = Some (tt, d',
                               delivery (scan_pubs d') LaserScanMsg
                                 (msgs scan))
                    /\ image_callback (processor_threshold p) image d'
                       = Some (tt, d',
                               image_delivery (image_pubs d') (msgs image)))
    /\ forall cloud : OutputType (list PointCloud2),
         (length (msgs cloud) <= length (lidar_pubs d'))%nat ->
         point_cloud_callback (num_valid_columns cloud) cloud d'
         = Some (tt, d',
                 delivery (lidar_pubs d') PointCloud2Msg (msgs cloud))
         /\ point_cloud_callback (num_valid_columns cloud + 1) cloud d'
            = Some (tt, d',
                    [Warn (IncompleteCloud (num_valid_columns cloud)
                             (num_valid_columns cloud + 1))]).
Proof.
  intros Hunset Hns Hn Hbeams.
  assert (Hzero : threshold_of pnh = 0).
  { unfold threshold_of. rewrite Hunset. reflexivity. }
  exists (configured pnh offset_ns d), (configuration_log pnh d).
  split.
  { apply create_publishers_run; [exact Hns | intros _; exact Hn |].
    intros _. exact Hbeams. }
  split.
  - intros Hany. exists (lidar_handler_for pnh offset_ns d).
    split; [unfold configured; cbn [lidar_packet_handler]; by rewrite Hany|].
    cbn [lidar_handler_for lidar_scan_handlers].
    split; [by apply processors_for_nonempty|].
    intros p Hp.
    rewrite (processors_for_threshold pnh d p Hp), Hzero.
    split; [reflexivity|].
    intros cloud scan image Hc Hs Hi Hcloud Hscan Himage.
    split; [by apply point_cloud_forwarded|].
    split; [by apply laser_scan_forwarded | by apply image_forwarded].
  - intros cloud Hcloud. split.
    + apply point_cloud_forwarded; [lia | exact Hcloud].
    + apply point_cloud_dropped. lia.
Qed.

(** ** The UTC/TAI offset *)

Lemma float_trunc_toward_zero (x : float) :
  float_trunc x
  = match Prim2SF x with
    | S754_zero _ => Some 0
    | S754_finite s m e => Some (toward_zero s m e)
    | S754_infinity _ | S754_nan => None
    end.
Proof.
  unfold float_trunc. destruct (Prim2SF x) as [s|s| |s m e]; try reflexivity.
  f_equal. unfold toward_zero. cbv zeta. destruct (0 <=? e) eqn:He.
  - rewrite Z.shiftl_mul_pow2 by lia. rewrite Z.max_l, Z.max_r by lia.
    rewrite Z.quot_1_r. destruct s; lia.
  - rewrite Z.shiftr_div_pow2 by lia. rewrite Z.max_r, Z.max_l by lia.
    rewrite Z.pow_0_r, Z.mul_1_r.
    assert (Hp : 0 < 2 ^ (- e)) by (apply Z.pow_pos_nonneg; lia).
    destruct s.
    + change (-1 * Z.pos m) with (- Z.pos m). rewrite Z.quot_opp_l by lia.
      rewrite Z.quot_div_nonneg by lia. reflexivity.
    + rewrite Z.mul_1_l. rewrite Z.quot_div_nonneg by lia. reflexivity.
Qed.

Lemma offset_to_ns_whole_seconds (n : Z) :
  -3600 <= n <= 3600 -> offset_to_ns (whole_seconds n) = Some (n * 10 ^ 9).
Proof.
  intros Hn.
  assert (Hall : forallb
                   (fun k => match offset_to_ns (whole_seconds k) with
                             | Some z => z =? k * 10 ^ 9
                             | None => false
                             end) (seqZ (-3600) 7201) = true)
    by (vm_compute; reflexivity).
  rewrite forallb_forall in Hall.
  specialize (Hall n). 
  destruct (offset_to_ns (whole_seconds n)) as [z|].
  - f_equal. apply Z.eqb_eq, Hall, list_elem_of_In, elem_of_seqZ. lia.
  - discriminate Hall. apply list_elem_of_In, elem_of_seqZ. lia.
Qed.

(** C7. The offset parameter is a number of seconds: [create_publishers]
    multiplies it by 1e+9 and truncates the product toward zero to a 64-bit
    integer (a whole number [n] of seconds, up to an hour either way,
    becomes [n * 10^9]; 37 becomes 37,000,000,000), and it hands that one
    value to the IMU packet handler and to the lidar packet handler,
    whichever of them it builds.  In the TAI-corrected mode every inertial
    packet is then published with the stamp of its hardware timestamp minus
    the offset in nanoseconds: minus 37,000,000,000 for 37 seconds. *)
Theorem utc_tai_offset_reaches_handlers_in_nanoseconds (pnh : Params)
    (offset_ns : Z) d :
  offset_to_ns (offset_of pnh) = Some offset_ns ->
  0 <= get_n_returns (info d) ->
  beams_count_of d <> INT_MIN ->
  (forall x : float,
     offset_to_ns x
     = match Prim2SF (PrimFloat.mul x 1e+9%float) with
       | S754_zero _ => Some 0
       | S754_finite s m e =>
           if (INT64_MIN <=? toward_zero s m e)
              && (toward_zero s m e <=? INT64_MAX)
           then Some (toward_zero s m e) else None
       | S754_infinity _ | S754_nan => None
       end)
  /\ (forall n, -3600 <= n <= 3600 ->
                offset_to_ns (whole_seconds n) = Some (n * 10 ^ 9))
  /\ whole_seconds 37 = 37%float
  /\ (p_ptp_utc_tai_offset pnh = Some 37%float -> offset_ns = 37000000000)
  /\ exists d' log,
       create_publishers pnh d = Some (tt, d', log)
       /\ (check_token (tokens_of pnh) "IMU" = true ->
           exists hi,
             imu_packet_handler d' = Some hi
             /\ imu_ptp_utc_tai_offset hi = offset_ns
             /\ (forall pkt,
                   on_imu_packet_msg pkt d'
                   = Some (tt, d',
                           [Publish (imu_pub d')
                              (ImuMsg (imu_handler_call hi pkt))]))
             /\ (parse_timestamp_mode (param (p_timestamp_mode pnh) "")
                 = TaiCorrected ->
                 forall pkt,
                   stamp (imu_handler_call hi pkt)
                   = imu_gyro_ts pkt - offset_ns))
       /\ (check_token (tokens_of pnh) "PCL"
             || check_token (tokens_of pnh) "SCAN"
             || check_token (tokens_of pnh) "IMG" = true ->
           exists hl,
             lidar_packet_handler d' = Some hl
             /\ lidar_ptp_utc_tai_offset hl = offset_ns).
Proof.
  intros Hns Hn Hbeams.
  split.
  { intros x. unfold offset_to_ns, static_cast_int64.
    rewrite float_trunc_toward_zero.
    by destruct (Prim2SF (PrimFloat.mul x 1e+9%float)). }
  split; [apply offset_to_ns_whole_seconds|].
  split; [by vm_compute|].
  split.
  { intros H37. unfold offset_of in Hns. rewrite H37 in Hns.
    cbn [param default from_option id] in Hns.
    assert (H : offset_to_ns 37%float = Some 37000000000)
      by (vm_compute; reflexivity).
    congruence. }
  exists (configured pnh offset_ns d), (configuration_log pnh d).
  split.
  { apply create_publishers_run; [exact Hns | intros _; exact Hn |].
    intros _. exact Hbeams. }
  split.
  - intros Himu.
    assert (Hhi : imu_packet_handler (configured pnh offset_ns d)
                  = Some (imu_handler_for pnh offset_ns d)).
    { unfold configured. cbn [imu_packet_handler]. by rewrite Himu. }
    exists (imu_handler_for pnh offset_ns d).
    split; [exact Hhi|]. split; [reflexivity|]. split.
    + intros pkt. by apply on_imu_packet_msg_run.
    + intros Hmode pkt. unfold imu_handler_call.
      cbn [stamp imu_handler_for imu_timestamp_mode imu_ptp_utc_tai_offset].
      rewrite Hmode. reflexivity.
  - intros Hlidar. exists (lidar_handler_for pnh offset_ns d).
    split; [|reflexivity].
    unfold configured. cbn [lidar_packet_handler]. by rewrite Hlidar.
Qed.


(** ** More on the scan ring *)

Lemma configuration_log_ring_warnings (pnh : Params) d :
  ring_warnings (configuration_log pnh d)
  = if check_token (tokens_of pnh) "SCAN"
    then ring_warnings (scan_warning pnh d) else [].
Proof.
  unfold configuration_log. cbv zeta. rewrite !ring_warnings_app.
  destruct (check_token _ "IMU"), (check_token _ "PCL"),
    (check_token _ "SCAN"), (check_token _ "IMG");
    rewrite ?ring_warnings_app, ?ring_warnings_return_adverts,
      ?ring_warnings_image_adverts, ?ring_warnings_pcl_warning;
    cbn [app]; rewrite ?app_nil_r; reflexivity.
Qed.

Lemma processors_for_scan (pnh : Params) d inf frame ring minv :
  LaserScanProcessor inf frame ring minv ∈ processors_for pnh d ->
  LaserScanProcessor inf frame ring minv = scan_processor pnh d.
Proof.
  unfold processors_for, pcl_processor, img_processor.
  intros Hin.
  destruct (check_token _ "PCL"), (check_token _ "SCAN"),
    (check_token _ "IMG");
    simpl in Hin; rewrite ?elem_of_cons, ?elem_of_nil in Hin;
    decompose [or] Hin; try contradiction; try discriminate; assumption.
Qed.

Lemma scan_processor_elem (pnh : Params) d :
  check_token (tokens_of pnh) "SCAN" = true ->
  scan_processor pnh d ∈ processors_for pnh d.
Proof.
  intros Hscan. unfold processors_for. rewrite Hscan.
  apply elem_of_app. right. apply elem_of_app. left. apply list_elem_of_here.
Qed.

(** What a run of [create_publishers] with SCAN enabled says of a laser
    scan processor found in the lidar packet handler it leaves. *)
Lemma built_scan_ring (pnh : Params) d d' log h inf frame ring minv :
  create_publishers pnh d = Some (tt, d', log) ->
  check_token (tokens_of pnh) "SCAN" = true ->
  lidar_packet_handler d' = Some h ->
  LaserScanProcessor inf frame ring minv ∈ lidar_scan_handlers h ->
  beams_count_of d <> INT_MIN
  /\ 0 <= get_n_returns (info d)
  /\ d' = configured pnh (offset_ns_of pnh) d
  /\ ring = clamp_scan_ring (param (p_scan_ring pnh) 0) (beams_count_of d).
Proof.
  intros Hrun Hscan Hh Hin.
  destruct (create_publishers_returns_runnable _ _ _ Hrun) as (_ & Hn & Hb).
  apply create_publishers_returns in Hrun as [-> _].
  unfold configured in Hh. cbn [lidar_packet_handler] in Hh.
  rewrite Hscan, orb_true_r in Hh. cbn [orb] in Hh.
  injection Hh as <-. cbn [lidar_handler_for lidar_scan_handlers] in Hin.
  apply processors_for_scan in Hin. unfold scan_processor in Hin.
  injection Hin as _ _ -> _.
  split; [by apply Hb|]. split; [apply Hn; by rewrite Hscan, orb_true_r|].
  split; reflexivity.
Qed.

Lemma static_cast_int_lower (x : Z) : INT_MIN <= static_cast_int x.
Proof.
  unfold static_cast_int, INT_MIN.
  pose proof (Z.mod_pos_bound (x + 2 ^ 31) (2 ^ 32) eq_refl). lia.
Qed.

(** X7. Clamping is idempotent on the configured driver: when a run of
    [create_publishers] with SCAN enabled has built a laser scan processor
    for some ring, a second run that sets [scan_ring] to that ring returns,
    logs no scan ring warning, and builds its laser scan processor for that
    same ring. *)
Theorem clamped_ring_is_accepted (pnh pnh' : Params) d d1 log1 h1 inf frame
    ring minv :
  create_publishers pnh d = Some (tt, d1, log1) ->
  check_token (tokens_of pnh) "SCAN" = true ->
  lidar_packet_handler d1 = Some h1 ->
  LaserScanProcessor inf frame ring minv ∈ lidar_scan_handlers h1 ->
  p_scan_ring pnh' = Some ring ->
  check_token (tokens_of pnh') "SCAN" = true ->
  is_Some (offset_to_ns (offset_of pnh')) ->
  exists d2 log2 h2,
    create_publishers pnh' d1 = Some (tt, d2, log2)
    /\ ring_warnings log2 = []
    /\ lidar_packet_handler d2 = Some h2
    /\ LaserScanProcessor (info d) (lidar_frame_id (tf_bcast d)) ring
         (param (p_min_valid_columns_in_scan pnh') 0)
       ∈ lidar_scan_handlers h2
    /\ forall inf' frame' ring' minv',
         LaserScanProcessor inf' frame' ring' minv' ∈ lidar_scan_handlers h2 ->
         ring' = ring.
Proof.
  intros Hrun Hscan Hh1 Hin Hring Hscan' Hoffset.
  destruct (built_scan_ring _ _ _ _ _ _ _ _ _ Hrun Hscan Hh1 Hin)
    as (Hb & Hn & -> & ->).
  set (d1 := configured pnh (offset_ns_of pnh) d).
  assert (Hsame : scan_ring_of pnh' d1
                  = clamp_scan_ring (param (p_scan_ring pnh) 0)
                      (beams_count_of d)).
  { unfold scan_ring_of. rewrite Hring. cbn [param default from_option id].
    change (beams_count_of d1) with (beams_count_of d).
    unfold clamp_scan_ring. lia. }
  assert (Hrun' : create_publishers pnh' d1
                  = Some (tt, configured pnh' (offset_ns_of pnh') d1,
                          configuration_log pnh' d1)).
  { apply runnable_runs. split; [intros _; exact Hoffset|].
    split; intros _; assumption. }
  exists (configured pnh' (offset_ns_of pnh') d1),
    (configuration_log pnh' d1),
    (lidar_handler_for pnh' (offset_ns_of pnh') d1).
  split; [exact Hrun'|]. split.
  { rewrite configuration_log_ring_warnings, Hscan'. unfold scan_warning.
    rewrite Hsame, Hring. cbn [param default from_option id].
    by rewrite Z.eqb_refl. }
  split.
  { unfold configured at 1. cbn [lidar_packet_handler].
    by rewrite Hscan', orb_true_r. }
  cbn [lidar_handler_for lidar_scan_handlers]. split.
  - rewrite <- Hsame. by apply (scan_processor_elem pnh' d1).
  - intros inf' frame' ring' minv' Hin'.
    apply processors_for_scan in Hin'. unfold scan_processor in Hin'.
    injection Hin' as _ _ -> _. exact Hsame.
Qed.

(** X8. The ring of a laser scan processor built by a run of
    [create_publishers] with SCAN enabled: the beam count of that run is not
    the least [int], so [beams_count - 1] does not overflow, and the ring is
    the clamped request.  It never exceeds [beams_count - 1]; it is
    non-negative exactly when the sensor has at least one beam, a beam count
    of zero or less giving the negative ring [beams_count - 1]; and it grows
    with the request: of two runs on the same driver, the one with the
    larger [scan_ring] builds the larger ring. *)
Theorem clamp_scan_ring_bounds (pnh : Params) d d' log h inf frame ring
    minv :
  create_publishers pnh d = Some (tt, d', log) ->
  check_token (tokens_of pnh) "SCAN" = true ->
  lidar_packet_handler d' = Some h ->
  LaserScanProcessor inf frame ring minv ∈ lidar_scan_handlers h ->
  beams_count_of d <> INT_MIN
  /\ INT_MIN <= beams_count_of d - 1
  /\ ring = clamp_scan_ring (param (p_scan_ring pnh) 0) (beams_count_of d)
  /\ ring <= beams_count_of d - 1
  /\ (0 <= ring <-> 1 <= beams_count_of d)
  /\ (beams_count_of d <= 0 -> ring = beams_count_of d - 1)
  /\ forall (pnh2 : Params) d2 log2 h2 inf2 frame2 ring2 minv2,
       create_publishers pnh2 d = Some (tt, d2, log2) ->
       check_token (tokens_of pnh2) "SCAN" = true ->
       lidar_packet_handler d2 = Some h2 ->
       LaserScanProcessor inf2 frame2 ring2 minv2 ∈ lidar_scan_handlers h2 ->
       param (p_scan_ring pnh) 0 <= param (p_scan_ring pnh2) 0 ->
       ring <= ring2.
Proof.
  intros Hrun Hscan Hh Hin.
  destruct (built_scan_ring _ _ _ _ _ _ _ _ _ Hrun Hscan Hh Hin)
    as (Hb & _ & _ & ->).
  pose proof (static_cast_int_lower (get_beams_count (info d))) as Hlow.
  fold (beams_count_of d) in Hlow.
  split; [exact Hb|]. split; [lia|]. split; [reflexivity|].
  split; [unfold clamp_scan_ring; lia|].
  split; [unfold clamp_scan_ring; lia|].
  split; [unfold clamp_scan_ring; lia|].
  intros pnh2 d2 log2 h2 inf2 frame2 ring2 minv2 Hrun2 Hscan2 Hh2 Hin2 Hle.
  destruct (built_scan_ring _ _ _ _ _ _ _ _ _ Hrun2 Hscan2 Hh2 Hin2)
    as (_ & _ & _ & ->).
  unfold clamp_scan_ring. lia.
Qed.

End Driver.

(** ** A sample sensor

    A 64-beam dual-return sensor, with scans reduced to their valid column
    count and messages to the index of the return they carry; the theorems
    above are applied to it below. *)

Definition sample_info : sensor_info :=
  {| beam_count := 64; columns_per_revolution := 1024; return_count := 2;
     udp_profile_lidar := PROFILE_RNG19_RFL8_SIG16_NIR16_DUAL |}.

Definition sample_tf : OusterTransformsBroadcaster :=
  {| imu_frame_id := "os_imu"; lidar_frame_id := "os_lidar";
     point_cloud_frame_id := "os_sensor";
     apply_lidar_to_sensor_transform := true |}.

Definition sample_topic_for_return (base : string) (idx : Z) : string :=
  if idx =? 0 then base else (base +:+ "2")%string.

Definition sample_requires_intensity (point_type : string) : bool :=
  String.eqb point_type "xyzi".

Definition sample_parse_timestamp_mode (mode : string) : TimestampMode :=
  if String.eqb mode "TIME_FROM_PTP_1588" then TaiCorrected
  else if String.eqb mode "TIME_FROM_ROS_TIME" then HostArrivalTime
  else SensorTime.

(** Every second lidar packet closes a scan of 10 valid columns. *)
Definition sample_accumulator (pending : nat) (pkt : RawPacket)
  : nat * option Z :=
  match pending with
  | O => (1%nat, None)
  | S _ => (0%nat, Some 10)
  end.

Definition sample_driver : @OusterDriver nat := new_driver sample_info sample_tf.

Definition default_params : Params :=
  {| p_proc_mask := None; p_timestamp_mode := None;
     p_ptp_utc_tai_offset := None; p_min_valid_columns_in_scan := None;
     p_point_type := None; p_scan_ring := None |}.

Definition with_scan_ring (ring : Z) : Params :=
  {| p_proc_mask := None; p_timestamp_mode := None;
     p_ptp_utc_tai_offset := None; p_min_valid_columns_in_scan := None;
     p_point_type := None; p_scan_ring := Some ring |}.

Definition imu_pcl_params : Params :=
  {| p_proc_mask := Some "IMU|PCL"%string; p_timestamp_mode := None;
     p_ptp_utc_tai_offset := None; p_min_valid_columns_in_scan := None;
     p_point_type := None; p_scan_ring := None |}.

Definition tai_params : Params :=
  {| p_proc_mask := None;
     p_timestamp_mode := Some "TIME_FROM_PTP_1588"%string;
     p_ptp_utc_tai_offset := Some 37%float;
     p_min_valid_columns_in_scan := None;
     p_point_type := None; p_scan_ring := None |}.

(** The sample driver once its publishers are advertised. *)
Definition sample_advertised : @OusterDriver nat :=
  {| info := sample_info; tf_bcast := sample_tf;
     imu_pub := Advertised ImuT "imu" 100;
     lidar_pubs := [Advertised PointCloud2T "points" 10;
                    Advertised PointCloud2T "points2" 10];
     scan_pubs := [Advertised LaserScanT "scan" 10;
                   Advertised LaserScanT "scan2" 10];
     image_pubs := {[RANGE := Advertised ImageT "range_image" 10]};
     imu_packet_handler := None; lidar_packet_handler := None |}.

Definition sample_cloud : OutputType (list nat) :=
  {| num_valid_columns := 10; msgs := [0; 1]%nat |}.
Definition sample_scan : OutputType (list nat) :=
  {| num_valid_columns := 3; msgs := [0; 1]%nat |}.
Definition sample_image : OutputType (list (ChanField * nat)) :=
  {| num_valid_columns := 10; msgs := [(RANGE, 0%nat)] |}.

Lemma sample_image_has_publisher :
  forall it, it ∈ msgs sample_image ->
             is_Some (image_pubs sample_advertised !! fst it).
Proof.
  intros it Hin. apply list_elem_of_singleton in Hin. subst it.
  eexists. apply lookup_singleton_eq.
Defined.

(** A threshold of 5 against a cloud and an image of 10 valid columns and a
    laser scan of 3. *)
Lemma frame_filter_delivers_once_witness :
  (length (msgs sample_cloud) <= length (lidar_pubs sample_advertised))%nat
  /\ (length (msgs sample_scan) <= length (scan_pubs sample_advertised))%nat
  /\ point_cloud_callback (LaserScan := nat) (Image := nat)
       (ImuReadings := unit) 5 sample_cloud sample_advertised
     = Some (tt, sample_advertised,
             [Publish (Advertised PointCloud2T "points" 10) (PointCloud2Msg 0%nat);
              Publish (Advertised PointCloud2T "points2" 10)
                (PointCloud2Msg 1%nat)])
  /\ laser_scan_callback (PointCloud2 := nat) (Image := nat)
       (ImuReadings := unit) 5 sample_scan sample_advertised
     = Some (tt, sample_advertised, []).
Proof.
  assert (Hcloud : (length (msgs sample_cloud)
                    <= length (lidar_pubs sample_advertised))%nat)
    by (simpl; lia).
  assert (Hscan : (length (msgs sample_scan)
                   <= length (scan_pubs sample_advertised))%nat)
    by (simpl; lia).
  split; [exact Hcloud|]. split; [exact Hscan|].
  destruct (frame_filter_delivers_once (ImuReadings := unit) 5
              sample_advertised sample_cloud sample_scan sample_image
              Hcloud Hscan sample_image_has_publisher)
    as (_ & Hforward & Hdrop & _).
  split.
  - apply Hforward. simpl. lia.
  - apply Hdrop. simpl. lia.
Defined.

Definition sample_empty_scan : OutputType (list nat) :=
  {| num_valid_columns := 0; msgs := [0; 1]%nat |}.

(** Ring -1 and ring 64 on the 64-beam sample sensor. *)
Lemma scan_ring_is_clamped_and_reported_witness :
  check_token (tokens_of (with_scan_ring (-1))) "SCAN" = true
  /\ offset_to_ns (offset_of (with_scan_ring (-1))) = Some (-37000000000)
  /\ 1 <= beams_count_of sample_driver
  /\ scan_ring_of (with_scan_ring (-1)) sample_driver = 0
  /\ scan_ring_of (with_scan_ring 64) sample_driver = 63
  /\ exists d' log,
       create_publishers (PointCloud2 := nat)
         (LaserScan := nat) (Image := nat) (ImuReadings := unit)
         sample_topic_for_return sample_requires_intensity (fun _ => 0%nat)
         (with_scan_ring 64) sample_driver
       = Some (tt, d', log)
       /\ ring_warnings log = [ScanRingClamped 64 63].
Proof.
  assert (Hbeams : 1 <= beams_count_of sample_driver)
    by (vm_compute; discriminate).
  assert (Hn : 0 <= get_n_returns (info sample_driver))
    by (vm_compute; discriminate).
  split; [reflexivity|]. split; [reflexivity|]. split; [exact Hbeams|].
  destruct (scan_ring_is_clamped_and_reported
              (PointCloud2 := nat) (LaserScan := nat) (Image := nat)
              (ImuReadings := unit) sample_topic_for_return
              sample_requires_intensity (fun _ => 0%nat)
              (with_scan_ring (-1)) (-37000000000) sample_driver
              eq_refl eq_refl Hn Hbeams)
    as (_ & _ & Hbelow & _).
  destruct (scan_ring_is_clamped_and_reported
              (PointCloud2 := nat) (LaserScan := nat) (Image := nat)
              (ImuReadings := unit) sample_topic_for_return
              sample_requires_intensity (fun _ => 0%nat)
              (with_scan_ring 64) (-37000000000) sample_driver
              eq_refl eq_refl Hn Hbeams)
    as (_ & _ & _ & Habove & d' & log & _ & Hrun & _ & _ & _ & Hwarn).
  split; [apply Hbelow; reflexivity|].
  split; [apply Habove; reflexivity|].
  exists d', log. split; [exact Hrun | exact Hwarn].
Defined.

(** The sample sensor has two returns: seven image topics. *)
Lemma image_sinks_follow_return_count_witness :
  check_token (tokens_of default_params) "IMG" = true
  /\ 0 <= get_n_returns (info sample_driver)
  /\ beams_count_of sample_driver <> INT_MIN
  /\ exists d' log,
       create_publishers (PointCloud2 := nat)
         (LaserScan := nat) (Image := nat) (ImuReadings := unit)
         sample_topic_for_return sample_requires_intensity (fun _ => 0%nat)
         default_params sample_driver
       = Some (tt, d', log)
       /\ advertised ImageT log
          = ["range_image"; "range_image2"; "signal_image"; "signal_image2";
             "reflec_image"; "reflec_image2"; "nearir_image"]%string
       /\ size (image_pubs d') = 7%nat.
Proof.
  assert (Hbeams : beams_count_of sample_driver <> INT_MIN)
    by (vm_compute; discriminate).
  assert (Hn : 0 <= get_n_returns (info sample_driver))
    by (vm_compute; discriminate).
  split; [reflexivity|]. split; [exact Hn|]. split; [exact Hbeams|].
  destruct (image_sinks_follow_return_count
              (PointCloud2 := nat) (LaserScan := nat) (Image := nat)
              (ImuReadings := unit) sample_topic_for_return
              sample_requires_intensity (fun _ => 0%nat)
              default_params (-37000000000) sample_driver
              eq_refl eq_refl Hn Hbeams)
    as (_ & _ & _ & _ & d' & log & Hrun & Hadv & _ & _ & Hsize).
  exists d', log. split; [exact Hrun|]. split; [exact Hadv|].
  apply Hsize. reflexivity.
Defined.

Definition sample_imu_gyro_ts (pkt : RawPacket) : Z :=
  1700000000000000000 + Z.of_nat (length pkt).

(** A scan of 10 valid columns through the processors of the default
    configuration: two point clouds, on "points" and "points2". *)
Lemma one_sink_and_sub_payload_per_return_witness :
  offset_to_ns (offset_of default_params) = Some (-37000000000)
  /\ 0 <= get_n_returns (info sample_driver)
  /\ beams_count_of sample_driver <> INT_MIN
  /\ threshold_of default_params <= 10
  /\ exists d' log,
       create_publishers (PointCloud2 := nat) (LaserScan := nat)
         (Image := nat) (ImuReadings := unit)
         sample_topic_for_return sample_requires_intensity (fun _ => 0%nat)
         default_params sample_driver
       = Some (tt, d', log)
       /\ Z.of_nat (length (lidar_pubs d')) = 2
       /\ process (ImuReadings := unit) (fun scan : Z => scan)
            (fun _ _ _ _ r _ => r) (fun _ _ _ r _ => r) (fun _ _ _ _ => 0%nat)
            (pcl_processor default_params sample_driver) 10 d'
          = Some (tt, d',
                  [Publish (Advertised PointCloud2T "points" 10)
                     (PointCloud2Msg 0%nat);
                   Publish (Advertised PointCloud2T "points2" 10)
                     (PointCloud2Msg 1%nat)]).
Proof.
  assert (Hbeams : beams_count_of sample_driver <> INT_MIN)
    by (vm_compute; discriminate).
  assert (Hn : 0 <= get_n_returns (info sample_driver))
    by (vm_compute; discriminate).
  assert (Hvalid : threshold_of default_params <= 10)
    by (vm_compute; discriminate).
  split; [reflexivity|]. split; [exact Hn|]. split; [exact Hbeams|].
  split; [exact Hvalid|].
  destruct (one_sink_and_sub_payload_per_return (ImuReadings := unit)
              sample_topic_for_return sample_requires_intensity
              (fun _ => 0%nat) (fun scan : Z => scan)
              (fun _ _ _ _ r _ => r) (fun _ _ _ r _ => r)
              (fun _ _ _ _ => 0%nat)
              default_params (-37000000000) sample_driver 10
              eq_refl Hn Hbeams Hvalid)
    as (d' & log & Hrun & Hpcl & _).
  destruct (Hpcl eq_refl) as (_ & Hlen & _ & _ & Hprocess & _).
  exists d', log. split; [exact Hrun|]. split; [exact Hlen | exact Hprocess].
Defined.

(** The mask "IMU|PCL" on the sample sensor, followed by four lidar packets
    (two completed scans) and an inertial packet. *)
Lemma mask_imu_pcl_selects_imu_and_point_cloud_witness :
  p_proc_mask imu_pcl_params = Some "IMU|PCL"%string
  /\ offset_to_ns (offset_of imu_pcl_params) = Some (-37000000000)
  /\ 0 <= get_n_returns (info sample_driver)
  /\ exists d' log hl,
       create_publishers (PointCloud2 := nat) (LaserScan := nat)
         (Image := nat) (ImuReadings := unit)
         sample_topic_for_return sample_requires_intensity (fun _ => 0%nat)
         imu_pcl_params sample_driver
       = Some (tt, d', log)
       /\ lidar_packet_handler d' = Some hl
       /\ lidar_scan_handlers hl = [pcl_processor imu_pcl_params sample_driver]
       /\ advertised LaserScanT log = []
       /\ advertised ImageT log = []
       /\ exists d'' log',
            deliver_all sample_imu_gyro_ts (fun _ => tt) (fun _ => 0)
              sample_parse_timestamp_mode sample_accumulator
              (fun scan : Z => scan) (fun _ _ _ _ r _ => r)
              (fun _ _ _ r _ => r) (fun _ _ _ _ => 0%nat)
              [LidarPacket []; LidarPacket []; ImuPacket [];
               LidarPacket []; LidarPacket []] d'
            = Some (tt, d'', log')
            /\ Forall (fun e => is_scan_or_image_publish e = false) log'.
Proof.
  assert (Hn : 0 <= get_n_returns (info sample_driver))
    by (vm_compute; discriminate).
  split; [reflexivity|]. split; [reflexivity|]. split; [exact Hn|].
  destruct (mask_imu_pcl_selects_imu_and_point_cloud
              sample_topic_for_return sample_requires_intensity
              (fun _ => 0%nat) sample_imu_gyro_ts (fun _ => tt) (fun _ => 0)
              sample_parse_timestamp_mode sample_accumulator
              (fun scan : Z => scan) (fun _ _ _ _ r _ => r)
              (fun _ _ _ r _ => r) (fun _ _ _ _ => 0%nat)
              imu_pcl_params (-37000000000) sample_driver
              eq_refl eq_refl Hn)
    as (_ & d' & log & hi & hl & Hrun & _ & Hhl & Hprocs & Hscan & Himg & _
        & _ & Hdeliver).
  destruct (Hdeliver [LidarPacket []; LidarPacket []; ImuPacket [];
                      LidarPacket []; LidarPacket []])
    as (d'' & log' & Hrun' & Hlog' & _).
  exists d', log, hl. do 5 (split; [assumption|]).
  exists d'', log'. split; assumption.
Defined.




(** ** The definitions at work *)

Example split_on_default_mask :
  split_on "|"%char "IMU|IMG|PCL|SCAN" = ["IMU"; "IMG"; "PCL"; "SCAN"]%string.
Proof. reflexivity. Qed.

Example parse_tokens_ignores_unrecognized :
  parse_tokens "IMU|FOO|PCL|scan| IMG" "|"%char
  = parse_tokens "IMU|PCL" "|"%char.
Proof. by vm_compute. Qed.

Example check_token_imu_pcl :
  map (check_token (parse_tokens "IMU|PCL" "|"%char))
    ["IMU"; "PCL"; "SCAN"; "IMG"]%string
  = [true; true; false; false].
Proof. reflexivity. Qed.

Example offset_to_ns_default : offset_to_ns (-37.0)%float = Some (-37000000000).
Proof. reflexivity. Qed.

Example offset_to_ns_truncates_toward_zero :
  offset_to_ns 37.5%float = Some 37500000000
  /\ offset_to_ns 0x1.8p-29%float = Some 2
  /\ offset_to_ns (-0x1.8p-29)%float = Some (-2).
Proof. repeat split. Qed.

Example offset_to_ns_out_of_range :
  offset_to_ns 1e10%float = None /\ offset_to_ns infinity = None
  /\ offset_to_ns nan = None.
Proof. repeat split. Qed.

Example clamp_scan_ring_64 :
  map (fun ring => clamp_scan_ring ring 64) [-1; 0; 17; 63; 64; 100]
  = [0; 0; 17; 63; 63; 63].
Proof. reflexivity. Qed.

(** The default configuration on the sample sensor: the topics advertised,
    in order. *)
Example sample_configuration :
  option_map snd
    (create_publishers (PointCloud2 := nat) (LaserScan := nat)
       (Image := nat) (ImuReadings := unit)
       sample_topic_for_return sample_requires_intensity (fun _ => 0%nat)
       default_params sample_driver)
  = Some [Advertise ImuT "imu" 100;
          Advertise PointCloud2T "points" 10;
          Advertise PointCloud2T "points2" 10;
          Advertise LaserScanT "scan" 10;
          Advertise LaserScanT "scan2" 10;
          Advertise ImageT "range_image" 10;
          Advertise ImageT "range_image2" 10;
          Advertise ImageT "signal_image" 10;
          Advertise ImageT "signal_image2" 10;
          Advertise ImageT "reflec_image" 10;
          Advertise ImageT "reflec_image2" 10;
          Advertise ImageT "nearir_image" 10].
Proof. by vm_compute. Qed.

(** Configuration of the sample sensor, then the packets [packets]; the
    log past the twelve advertisements. *)
Definition sample_session (pnh : Params) (packets : list Delivery)
  : option (list (@Event nat nat nat unit)) :=
  option_map (fun r => drop 12 (snd r))
    ((bind
        (create_publishers sample_topic_for_return sample_requires_intensity
           (fun _ => 0%nat) pnh)
        (fun _ =>
           deliver_all sample_imu_gyro_ts (fun _ => tt) (fun _ => 0)
             sample_parse_timestamp_mode sample_accumulator
             (fun scan : Z => scan) (fun _ _ _ _ r _ => r)
             (fun _ _ _ r _ => r) (fun _ _ _ _ => 0%nat) packets))
       sample_driver).

Definition with_threshold (threshold : Z) : Params :=
  {| p_proc_mask := None; p_timestamp_mode := None;
     p_ptp_utc_tai_offset := None;
     p_min_valid_columns_in_scan := Some threshold;
     p_point_type := None; p_scan_ring := None |}.

(** A lidar packet, an inertial packet and the lidar packet that closes a
    scan of 10 valid columns: the sample is published at once, the scan
    through every processor. *)
Example sample_session_forwards :
  sample_session default_params [LidarPacket []; ImuPacket []; LidarPacket []]
  = Some [Publish (Advertised ImuT "imu" 100)
            (ImuMsg {| stamp := 1700000000000000000; frame_id := "os_imu";
                       readings := tt |});
          Publish (Advertised PointCloud2T "points" 10) (PointCloud2Msg 0%nat);
          Publish (Advertised PointCloud2T "points2" 10) (PointCloud2Msg 1%nat);
          Publish (Advertised LaserScanT "scan" 10) (LaserScanMsg 0%nat);
          Publish (Advertised LaserScanT "scan2" 10) (LaserScanMsg 1%nat);
          Publish (Advertised ImageT "range_image" 10) (ImageMsg 0%nat);
          Publish (Advertised ImageT "range_image2" 10) (ImageMsg 0%nat);
          Publish (Advertised ImageT "signal_image" 10) (ImageMsg 0%nat);
          Publish (Advertised ImageT "signal_image2" 10) (ImageMsg 0%nat);
          Publish (Advertised ImageT "reflec_image" 10) (ImageMsg 0%nat);
          Publish (Advertised ImageT "reflec_image2" 10) (ImageMsg 0%nat);
          Publish (Advertised ImageT "nearir_image" 10) (ImageMsg 0%nat)].
Proof. by vm_compute. Qed.

(** The same packets against a threshold of 11: the scan is dropped by all
    three processors, and the point cloud callback alone reports it. *)
Example sample_session_drops :
  sample_session (with_threshold 11)
    [LidarPacket []; ImuPacket []; LidarPacket []]
  = Some [Publish (Advertised ImuT "imu" 100)
            (ImuMsg {| stamp := 1700000000000000000; frame_id := "os_imu";
                       readings := tt |});
          Warn (IncompleteCloud 10 11)].
Proof. by vm_compute. Qed.

(** ** The sample sensor, reconfigured *)

Definition sample_create (pnh : Params)
  : (@OusterDriver nat) ->
    option ((unit * (@OusterDriver nat)) * list (@Event nat nat nat unit)) :=
  create_publishers sample_topic_for_return sample_requires_intensity
    (fun _ => 0%nat) pnh.

(** The sample driver after the default configuration. *)
Definition sample_configured : @OusterDriver nat :=
  configured sample_topic_for_return (fun _ => 0%nat) default_params
    (-37000000000) sample_driver.

Definition imu_only_params : Params :=
  {| p_proc_mask := Some "IMU"%string; p_timestamp_mode := None;
     p_ptp_utc_tai_offset := None; p_min_valid_columns_in_scan := None;
     p_point_type := None; p_scan_ring := None |}.

(** A point type that needs intensity and a ring past the last beam. *)
Definition xyzi_params : Params :=
  {| p_proc_mask := None; p_timestamp_mode := None;
     p_ptp_utc_tai_offset := None; p_min_valid_columns_in_scan := None;
     p_point_type := Some "xyzi"%string; p_scan_ring := Some 100 |}.

Definition low_data_info : sensor_info :=
  {| beam_count := 64; columns_per_revolution := 1024; return_count := 1;
     udp_profile_lidar := PROFILE_RNG15_RFL8_NIR8 |}.

(** The configured sample driver once the sensor has switched to the
    single-return low data rate profile. *)
Definition sample_switched : @OusterDriver nat :=
  {| info := low_data_info; tf_bcast := sample_tf;
     imu_pub := imu_pub sample_configured;
     lidar_pubs := lidar_pubs sample_configured;
     scan_pubs := scan_pubs sample_configured;
     image_pubs := image_pubs sample_configured;
     imu_packet_handler := imu_packet_handler sample_configured;
     lidar_packet_handler := lidar_packet_handler sample_configured |}.

Lemma sample_create_runs (pnh : Params) (d : @OusterDriver nat) :
  is_Some (offset_to_ns (offset_of pnh)) ->
  0 <= get_n_returns (info d) ->
  beams_count_of d <> INT_MIN ->
  sample_create pnh d
  = Some (tt,
          configured sample_topic_for_return (fun _ => 0%nat) pnh
            (offset_ns_of pnh) d,
          configuration_log (PointCloud2 := nat) (LaserScan := nat)
            (Image := nat) (ImuReadings := unit) sample_topic_for_return
            sample_requires_intensity pnh d).
Proof.
  intros Hoffset Hn Hbeams. apply runnable_runs. by repeat split.
Defined.

(** The mask "IMU" on the configured sample driver: the lidar packet
    handler of the earlier configuration is still there. *)
Lemma disabled_tokens_leave_members_untouched_witness :
  exists d' log,
    sample_create imu_only_params sample_configured = Some (tt, d', log)
    /\ lidar_packet_handler d' = lidar_packet_handler sample_configured
    /\ is_Some (lidar_packet_handler d')
    /\ scan_pubs d' = scan_pubs sample_configured.
Proof.
  assert (Hrun := sample_create_runs imu_only_params sample_configured
                    (ex_intro _ _ eq_refl)
                    ltac:(vm_compute; discriminate)
                    ltac:(vm_compute; discriminate)).
  destruct (disabled_tokens_leave_members_untouched (ImuReadings := unit)
              sample_topic_for_return sample_requires_intensity
              (fun _ => 0%nat) imu_only_params sample_configured _ _ Hrun)
    as (_ & _ & Hscan & _ & Hlidar & _).
  eexists _, _. split; [exact Hrun|].
  split; [by apply Hlidar|]. split.
  - rewrite Hlidar by reflexivity. by eexists.
  - by apply Hscan.
Defined.

Lemma create_publishers_never_publishes_witness :
  exists d' log,
    sample_create default_params sample_driver = Some (tt, d', log)
    /\ publishes log = [] /\ info d' = sample_info.
Proof.
  assert (Hrun := sample_create_runs default_params sample_driver
                    (ex_intro _ _ eq_refl)
                    ltac:(vm_compute; discriminate)
                    ltac:(vm_compute; discriminate)).
  destruct (create_publishers_never_publishes (ImuReadings := unit)
              sample_topic_for_return sample_requires_intensity
              (fun _ => 0%nat) default_params sample_driver _ _ Hrun)
    as (Hpub & Hinfo & _).
  eexists _, _. split; [exact Hrun|]. split; [exact Hpub | exact Hinfo].
Defined.

(** After the switch to a single return the publisher of RANGE2 is still in
    [image_pubs], though the selected map no longer names the field. *)
Lemma image_publishers_are_never_removed_witness :
  image_pubs sample_switched !! RANGE2
  = Some (Advertised ImageT "range_image2" 10)
  /\ (RANGE2 ∉ map fst (which_map (get_n_returns (info sample_switched))))
  /\ exists d' log,
       sample_create default_params sample_switched = Some (tt, d', log)
       /\ image_pubs d' !! RANGE2 = Some (Advertised ImageT "range_image2" 10).
Proof.
  assert (Hrun := sample_create_runs default_params sample_switched
                    (ex_intro _ _ eq_refl)
                    ltac:(vm_compute; discriminate)
                    ltac:(vm_compute; discriminate)).
  assert (Hold : image_pubs sample_switched !! RANGE2
                 = Some (Advertised ImageT "range_image2" 10))
    by (vm_compute; reflexivity).
  assert (Hgone : RANGE2 ∉ map fst
                    (which_map (get_n_returns (info sample_switched)))).
  { cbn. rewrite !elem_of_cons, elem_of_nil.
    intros [H|[H|[H|[H|H]]]]; try discriminate; exact H. }
  split; [exact Hold|]. split; [exact Hgone|].
  destruct (image_publishers_are_never_removed (ImuReadings := unit)
              sample_topic_for_return sample_requires_intensity
              (fun _ => 0%nat) default_params sample_switched _ _
              RANGE2 _ Hrun Hold) as (_ & Hkept).
  eexists _, _. split; [exact Hrun|]. apply Hkept. right. exact Hgone.
Defined.

(** The intensity point type on the low data rate profile, with ring 100
    requested on 64 beams: both warnings, in order. *)
Lemma configuration_warnings_witness :
  exists d' log,
    sample_create xyzi_params sample_switched = Some (tt, d', log)
    /\ warnings log = [ProfileIncompatible "xyzi"; ScanRingClamped 64 63].
Proof.
  assert (Hrun := sample_create_runs xyzi_params sample_switched
                    (ex_intro _ _ eq_refl)
                    ltac:(vm_compute; discriminate)
                    ltac:(vm_compute; discriminate)).
  destruct (configuration_warnings (ImuReadings := unit)
              sample_topic_for_return sample_requires_intensity
              (fun _ => 0%nat) xyzi_params sample_switched _ _ Hrun)
    as (Hwarn & _).
  eexists _, _. split; [exact Hrun | exact Hwarn].
Defined.

Lemma reconfiguration_is_idempotent_witness :
  exists d' log,
    sample_create default_params sample_driver = Some (tt, d', log)
    /\ sample_create default_params d' = Some (tt, d', log).
Proof.
  assert (Hrun := sample_create_runs default_params sample_driver
                    (ex_intro _ _ eq_refl)
                    ltac:(vm_compute; discriminate)
                    ltac:(vm_compute; discriminate)).
  eexists _, _. split; [exact Hrun|].
  exact (reconfiguration_is_idempotent (ImuReadings := unit)
           sample_topic_for_return sample_requires_intensity
           (fun _ => 0%nat) default_params sample_driver _ _ Hrun).
Defined.

Lemma image_frames_reach_their_topics_witness :
  exists d' log,
    sample_create default_params sample_driver = Some (tt, d', log)
    /\ image_callback (PointCloud2 := nat) (LaserScan := nat)
         (ImuReadings := unit) (threshold_of default_params) sample_image d'
       = Some (tt, d',
               [Publish (Advertised ImageT "range_image" 10) (ImageMsg 0%nat)]).
Proof.
  assert (Hrun := sample_create_runs default_params sample_driver
                    (ex_intro _ _ eq_refl)
                    ltac:(vm_compute; discriminate)
                    ltac:(vm_compute; discriminate)).
  eexists _, _. split; [exact Hrun|].
  apply (image_frames_reach_their_topics (ImuReadings := unit)
           sample_topic_for_return sample_requires_intensity
           (fun _ => 0%nat) default_params sample_driver _ _ sample_image
           Hrun eq_refl).
  - vm_compute. discriminate.
  - intros it Hin. apply list_elem_of_singleton in Hin. subst it.
    by eexists.
Defined.

(** The mask "IMU" on the new sample driver: lidar packets are dropped. *)
Lemma new_driver_handles_enabled_kinds_witness :
  exists d' log,
    sample_create imu_only_params (new_driver sample_info sample_tf)
    = Some (tt, d', log)
    /\ is_Some (imu_packet_handler d')
    /\ on_lidar_packet_msg (PointCloud2 := nat) (LaserScan := nat)
         (Image := nat) (ImuReadings := unit) sample_accumulator
         (fun scan : Z => scan) (fun _ _ _ _ r _ => r) (fun _ _ _ r _ => r)
         (fun _ _ _ _ => 0%nat) [] d'
       = Some (tt, d', []).
Proof.
  assert (Hrun := sample_create_runs imu_only_params
                    (new_driver sample_info sample_tf)
                    (ex_intro _ _ eq_refl)
                    ltac:(vm_compute; discriminate)
                    ltac:(vm_compute; discriminate)).
  destruct (new_driver_handles_enabled_kinds (ImuReadings := unit)
              sample_topic_for_return sample_requires_intensity
              (fun _ => 0%nat) sample_imu_gyro_ts (fun _ => tt) (fun _ => 0)
              sample_parse_timestamp_mode sample_accumulator
              (fun scan : Z => scan) (fun _ _ _ _ r _ => r)
              (fun _ _ _ r _ => r) (fun _ _ _ _ => 0%nat)
              imu_only_params sample_info sample_tf _ _ Hrun)
    as (Himu & _ & _ & Hlidar).
  eexists _, _. split; [exact Hrun|]. split.
  - by apply Himu.
  - by apply Hlidar.
Defined.

(** Two clouds and two laser scans on the new sample driver, which has no
    publisher yet: the clouds (10 valid columns against a threshold of 5)
    run past the empty vector, the laser scans (3 valid columns) are
    dropped. *)
Lemma oversized_frames_overrun_the_publishers_witness :
  (length (lidar_pubs sample_driver) < length (msgs sample_cloud))%nat
  /\ (length (scan_pubs sample_driver) < length (msgs sample_scan))%nat
  /\ point_cloud_callback (LaserScan := nat) (Image := nat)
       (ImuReadings := unit) 5 sample_cloud sample_driver = None
  /\ laser_scan_callback (PointCloud2 := nat) (Image := nat)
       (ImuReadings := unit) 5 sample_scan sample_driver
     = Some (tt, sample_driver, []).
Proof.
  assert (Hcloud : (length (lidar_pubs sample_driver)
                    < length (msgs sample_cloud))%nat) by (simpl; lia).
  assert (Hscan : (length (scan_pubs sample_driver)
                   < length (msgs sample_scan))%nat) by (simpl; lia).
  split; [exact Hcloud|]. split; [exact Hscan|].
  destruct (oversized_frames_overrun_the_publishers (Image := nat)
              (ImuReadings := unit) 5 sample_driver sample_cloud sample_scan
              Hcloud Hscan) as (Hover & _ & _ & Hdrop).
  split; [apply Hover | apply Hdrop]; simpl; lia.
Defined.

(** An image of RANGE on the new sample driver, which has no image
    publisher: the image goes to a default-constructed publisher that stays
    in [image_pubs]. *)
Lemma image_callback_fills_missing_publishers_witness :
  5 <= num_valid_columns sample_image
  /\ image_callback (PointCloud2 := nat) (LaserScan := nat)
       (ImuReadings := unit) 5 sample_image sample_driver
     = Some (tt,
             set_image_pubs {[RANGE := InvalidPublisher]} sample_driver,
             [Publish InvalidPublisher (ImageMsg 0%nat)]).
Proof.
  assert (Hvalid : 5 <= num_valid_columns sample_image) by (simpl; lia).
  split; [exact Hvalid|].
  destruct (image_callback_fills_missing_publishers (PointCloud2 := nat)
              (LaserScan := nat) (ImuReadings := unit) 5 sample_image
              sample_driver Hvalid) as (Hrun & _).
  exact Hrun.
Defined.

(** The default configuration: both handlers hold -37,000,000,000 ns. *)
Lemma handlers_share_their_configuration_witness :
  exists d' log hi hl,
    sample_create default_params sample_driver = Some (tt, d', log)
    /\ imu_packet_handler d' = Some hi
    /\ lidar_packet_handler d' = Some hl
    /\ offset_to_ns (offset_of default_params)
       = Some (imu_ptp_utc_tai_offset hi)
    /\ lidar_ptp_utc_tai_offset hl = imu_ptp_utc_tai_offset hi.
Proof.
  assert (Hrun := sample_create_runs default_params sample_driver
                    (ex_intro _ _ eq_refl)
                    ltac:(vm_compute; discriminate)
                    ltac:(vm_compute; discriminate)).
  destruct (handlers_share_their_configuration (ImuReadings := unit)
              sample_topic_for_return sample_requires_intensity
              (fun _ => 0%nat) default_params sample_driver _ _ Hrun
              eq_refl eq_refl)
    as (hi & hl & Hhi & Hhl & Hns & Hsame & _).
  eexists _, _, hi, hl. split; [exact Hrun|].
  split; [exact Hhi|]. split; [exact Hhl|]. split; [exact Hns | exact Hsame].
Defined.

(** With the default parameters every processor of the sample driver has
    the threshold 0. *)
Lemma default_threshold_forwards_every_frame_witness :
  p_min_valid_columns_in_scan default_params = None
  /\ exists d' log h,
       sample_create default_params sample_driver = Some (tt, d', log)
       /\ lidar_packet_handler d' = Some h
       /\ lidar_scan_handlers h <> []
       /\ forall p, p ∈ lidar_scan_handlers h -> processor_threshold p = 0.
Proof.
  split; [reflexivity|].
  destruct (default_threshold_forwards_every_frame (PointCloud2 := nat)
              (LaserScan := nat) (Image := nat) (ImuReadings := unit)
              sample_topic_for_return sample_requires_intensity
              (fun _ => 0%nat) default_params (-37000000000) sample_driver
              eq_refl eq_refl ltac:(vm_compute; discriminate)
              ltac:(vm_compute; discriminate))
    as (d' & log & Hrun & Hlidar & _).
  destruct (Hlidar eq_refl) as (h & Hh & Hsome & Hall).
  exists d', log, h. split; [exact Hrun|]. split; [exact Hh|].
  split; [exact Hsome|]. intros p Hp. by destruct (Hall p Hp).
Defined.

(** An offset of 37 seconds in the TAI-corrected mode: both handlers hold
    37,000,000,000 ns and the stamp of an inertial packet is moved back by
    as much. *)
Lemma utc_tai_offset_reaches_handlers_in_nanoseconds_witness :
  offset_to_ns (offset_of tai_params) = Some 37000000000
  /\ sample_parse_timestamp_mode (param (p_timestamp_mode tai_params) "")
     = TaiCorrected
  /\ offset_to_ns (whole_seconds (-37)) = Some (-37000000000)
  /\ exists d' log hi hl,
       sample_create tai_params sample_driver = Some (tt, d', log)
       /\ imu_packet_handler d' = Some hi
       /\ imu_ptp_utc_tai_offset hi = 37000000000
       /\ lidar_packet_handler d' = Some hl
       /\ lidar_ptp_utc_tai_offset hl = 37000000000
       /\ on_imu_packet_msg (PointCloud2 := nat) (LaserScan := nat)
            (Image := nat) sample_imu_gyro_ts (fun _ => tt) (fun _ => 0)
            sample_parse_timestamp_mode [] d'
          = Some (tt, d',
                  [Publish (imu_pub d')
                     (ImuMsg (imu_handler_call sample_imu_gyro_ts
                                (fun _ => tt) (fun _ => 0)
                                sample_parse_timestamp_mode hi []))])
       /\ stamp (imu_handler_call sample_imu_gyro_ts (fun _ => tt)
                   (fun _ => 0) sample_parse_timestamp_mode hi [])
          = 1700000000000000000 - 37000000000.
Proof.
  assert (Hns : offset_to_ns (offset_of tai_params) = Some 37000000000)
    by (vm_compute; reflexivity).
  split; [exact Hns|]. split; [reflexivity|].
  destruct (utc_tai_offset_reaches_handlers_in_nanoseconds
              (PointCloud2 := nat) (LaserScan := nat) (Image := nat)
              sample_topic_for_return sample_requires_intensity
              (fun _ => 0%nat) sample_imu_gyro_ts (fun _ => tt) (fun _ => 0)
              sample_parse_timestamp_mode tai_params 37000000000
              sample_driver Hns ltac:(vm_compute; discriminate)
              ltac:(vm_compute; discriminate))
    as (_ & Hwhole & _ & _ & d' & log & Hrun & Himu & Hlidar).
  split; [apply (Hwhole (-37)); lia|].
  destruct (Himu eq_refl) as (hi & Hhi & Hoffset & Hpub & Hstamp).
  destruct (Hlidar eq_refl) as (hl & Hhl & Hoffset').
  exists d', log, hi, hl. split; [exact Hrun|]. split; [exact Hhi|].
  split; [exact Hoffset|]. split; [exact Hhl|]. split; [exact Hoffset'|].
  split; [exact (Hpub [])|]. exact (Hstamp eq_refl []).
Defined.

(** A request for ring 100 on the 64-beam sample sensor builds ring 63; a
    second configuration asking for ring 63 keeps it and logs no scan ring
    warning. *)
Lemma clamped_ring_is_accepted_witness :
  exists d1 log1 h1 d2 log2 h2,
    sample_create (with_scan_ring 100) sample_driver = Some (tt, d1, log1)
    /\ lidar_packet_handler d1 = Some h1
    /\ LaserScanProcessor sample_info (lidar_frame_id sample_tf) 63 0
       ∈ lidar_scan_handlers h1
    /\ sample_create (with_scan_ring 63) d1 = Some (tt, d2, log2)
    /\ ring_warnings log2 = []
    /\ lidar_packet_handler d2 = Some h2
    /\ LaserScanProcessor sample_info (lidar_frame_id sample_tf) 63 0
       ∈ lidar_scan_handlers h2.
Proof.
  assert (Hrun := sample_create_runs (with_scan_ring 100) sample_driver
                    (ex_intro _ _ eq_refl)
                    ltac:(vm_compute; discriminate)
                    ltac:(vm_compute; discriminate)).
  assert (Hin : LaserScanProcessor sample_info (lidar_frame_id sample_tf)
                  63 0
                ∈ processors_for (ScanState := nat) (with_scan_ring 100)
                    sample_driver)
    by (apply list_elem_of_further, list_elem_of_here).
  destruct (clamped_ring_is_accepted (ImuReadings := unit)
              sample_topic_for_return sample_requires_intensity
              (fun _ => 0%nat) (with_scan_ring 100) (with_scan_ring 63)
              sample_driver _ _ _ _ _ _ _ Hrun eq_refl eq_refl Hin eq_refl
              eq_refl (ex_intro _ _ eq_refl))
    as (d2 & log2 & h2 & Hrun' & Hquiet & Hh2 & Hin2 & _).
  eexists _, _, _, d2, log2, h2. split; [exact Hrun|].
  split; [reflexivity|]. split; [exact Hin|]. split; [exact Hrun'|].
  split; [exact Hquiet|]. split; [exact Hh2 | exact Hin2].
Defined.

(** Ring 100 on the 64-beam sample sensor: the processor is built for ring
    63, the largest ring index. *)
Lemma clamp_scan_ring_bounds_witness :
  exists d' log h,
    sample_create (with_scan_ring 100) sample_driver = Some (tt, d', log)
    /\ lidar_packet_handler d' = Some h
    /\ LaserScanProcessor sample_info (lidar_frame_id sample_tf) 63 0
       ∈ lidar_scan_handlers h
    /\ beams_count_of sample_driver <> INT_MIN
    /\ 63 <= beams_count_of sample_driver - 1
    /\ (0 <= 63 <-> 1 <= beams_count_of sample_driver).
Proof.
  assert (Hrun := sample_create_runs (with_scan_ring 100) sample_driver
                    (ex_intro _ _ eq_refl)
                    ltac:(vm_compute; discriminate)
                    ltac:(vm_compute; discriminate)).
  assert (Hin : LaserScanProcessor sample_info (lidar_frame_id sample_tf)
                  63 0
                ∈ processors_for (ScanState := nat) (with_scan_ring 100)
                    sample_driver)
    by (apply list_elem_of_further, list_elem_of_here).
  destruct (clamp_scan_ring_bounds (ImuReadings := unit)
              sample_topic_for_return sample_requires_intensity
              (fun _ => 0%nat) (with_scan_ring 100) sample_driver _ _ _ _ _
              _ _ Hrun eq_refl eq_refl Hin)
    as (Hb & _ & _ & Hle & Hpos & _).
  eexists _, _, _. split; [exact Hrun|]. split; [reflexivity|].
  split; [exact Hin|]. split; [exact Hb|]. split; [exact Hle | exact Hpos].
Defined.
